(** * Natal-chart computation of [utils/natal_csv_generator.py]

    A shallow embedding of the zodiac projection, the ascendant estimator,
    the chart computation with its fallbacks and the CSV row synthesizer,
    together with the properties stated about them.

    Python [float] is IEEE 754 binary64.  It is modelled by the Standard
    Library's [spec_float] at precision 53 and maximal exponent 1024, whose
    operations round to nearest even like the hardware ones CPython uses.
    The longitudes skyfield returns are [numpy.float64] values, a subclass
    of [float] whose [%] and [//] follow the same algorithm for a nonzero
    divisor.
    Python exceptions are modelled by a result type; the external calls
    (skyfield, pytz) are oracles that return a value or raise.  The chart
    computation is given a second time in a store, with the module's tables
    and the state of the libraries threaded through the calls; the two
    embeddings are shown to agree. *)

From Stdlib Require Import ZArith QArith Qpower Qround Qfield List String Bool Lia Lqa.
From Stdlib Require Import Floats.SpecFloat.
From Stdlib Require Import Sorting.Permutation.
Import ListNotations.

Local Open Scope string_scope.
Local Open Scope Z_scope.

(** ** Exceptions and results *)

(** The subclasses of Python's [Exception] that the code distinguishes.
    [AttributeError], [TypeError] and [ValueError] stand for these classes
    and their subclasses (an [except] clause matches subclasses too);
    [OtherException] is every other subclass of [Exception].
    [KeyboardInterrupt] and [SystemExit] are not subclasses of [Exception]
    and are not raised by a computation; they are outside the model. *)
Inductive exn : Type :=
| AttributeError
| TypeError
| ValueError
| IndexError
| KeyError
| OverflowError
| ZeroDivisionError
| OtherException (name : string).

Inductive result (A : Type) : Type :=
| Ok (a : A)
| Raise (e : exn).

Arguments Ok {A} a.
Arguments Raise {A} e.

Definition bind {A B : Type} (c : result A) (k : A -> result B) : result B :=
  match c with
  | Ok a => k a
  | Raise e => Raise e
  end.

(** [try: body / except <classes>: handler], where [catches e] tells whether
    the clause matches the exception. *)
Definition try_except {A : Type} (body : result A) (catches : exn -> bool)
    (handler : exn -> result A) : result A :=
  match body with
  | Ok a => Ok a
  | Raise e => if catches e then handler e else Raise e
  end.

(** [except Exception]: every member of [exn]. *)
Definition any_Exception (_ : exn) : bool := true.

Declare Scope py_scope.
Delimit Scope py_scope with py.
Notation "x <- c ;; k" := (bind c (fun x => k))
  (at level 61, c at next level, right associativity) : py_scope.
Notation "' p <- c ;; k" := (bind c (fun x => let p := x in k))
  (at level 61, p pattern, c at next level, right associativity) : py_scope.

(** ** Python floats *)

Module PyFloat.

Definition prec : Z := 53.
Definition emax : Z := 1024.

Definition float : Type := spec_float.

Definition add : float -> float -> float := SFadd prec emax.
Definition sub : float -> float -> float := SFsub prec emax.
Definition mul : float -> float -> float := SFmul prec emax.
Definition div : float -> float -> float := SFdiv prec emax.
Definition abs : float -> float := SFabs.
Definition ltb : float -> float -> bool := SFltb.
Definition leb : float -> float -> bool := SFleb.

(** Conversion of a Python [int] to [float] (exact below 2^53). *)
Definition of_Z (z : Z) : float := binary_normalize prec emax z 0 false.

Definition zero : float := S754_zero false.
Definition inf : float := S754_infinity false.
Definition one : float := Eval vm_compute in of_Z 1.
Definition half : float := Eval vm_compute in div (of_Z 1) (of_Z 2).

(** C truth value of a double: [mod != 0.0]; a NaN is true. *)
Definition is_zero (x : float) : bool :=
  match x with
  | S754_zero _ => true
  | _ => false
  end.

Definition signbit (x : float) : bool :=
  match x with
  | S754_zero s | S754_infinity s | S754_finite s _ _ => s
  | S754_nan => false
  end.

Definition copysign_zero (y : float) : float := S754_zero (signbit y).

(** The canonical representation of the value [m * 2^e] when it has one with
    exponent at most [e] (a left shift of the mantissa; the value is kept in
    every case). *)
Definition normal (s : bool) (m : positive) (e : Z) : float :=
  let '(mz, ez) := shl_align m e (fexp prec emax (Zpos (digits2_pos m) + e)) in
  S754_finite s mz ez.

(** C [fmod]: the remainder of the division truncated towards zero, with the
    sign of the dividend.  The result is computed exactly. *)
Definition fmod (x y : float) : float :=
  match x, y with
  | S754_nan, _ | _, S754_nan => S754_nan
  | S754_infinity _, _ => S754_nan
  | _, S754_zero _ => S754_nan
  | _, S754_infinity _ => x
  | S754_zero _, _ => x
  | S754_finite sx mx ex, S754_finite _ my ey =>
      let ez := Z.min ex ey in
      match Z.rem (Zpos mx * 2 ^ (ex - ez)) (Zpos my * 2 ^ (ey - ez)) with
      | Zpos m => normal sx m ez
      | _ => S754_zero sx
      end
  end.

(** C [floor]. *)
Definition floor (x : float) : float :=
  match x with
  | S754_finite s m e =>
      if 0 <=? e then x
      else match cond_Zopp s (Zpos m) / 2 ^ (- e) with
           | Z0 => S754_zero s
           | z => of_Z z
           end
  | _ => x
  end.

(** [float.__mod__] of CPython ([float_rem]). *)
Definition py_mod (vx wx : float) : result float :=
  if is_zero wx then Raise ZeroDivisionError
  else
    let r := fmod vx wx in
    if negb (is_zero r) then
      if xorb (ltb wx zero) (ltb r zero) then Ok (add r wx) else Ok r
    else Ok (copysign_zero wx).

(** [float.__floordiv__] of CPython ([float_floor_div], through
    [_float_div_mod]). *)
Definition py_floordiv (vx wx : float) : result float :=
  if is_zero wx then Raise ZeroDivisionError
  else
    let r := fmod vx wx in
    let div0 := div (sub vx r) wx in
    let div1 :=
      if negb (is_zero r) && xorb (ltb wx zero) (ltb r zero)
      then sub div0 one else div0 in
    if negb (is_zero div1) then
      let floordiv := floor div1 in
      if ltb half (sub div1 floordiv) then Ok (add floordiv one)
      else Ok floordiv
    else Ok (copysign_zero (div vx wx)).

(** [int(x)] for a float: truncation towards zero. *)
Definition py_int (x : float) : result Z :=
  match x with
  | S754_nan => Raise ValueError
  | S754_infinity _ => Raise OverflowError
  | S754_zero _ => Ok 0
  | S754_finite s m e =>
      Ok (cond_Zopp s (if 0 <=? e then Zpos m * 2 ^ e else Zpos m / 2 ^ (- e)))
  end.

(** The rational a float denotes; [None] for NaN and the infinities. *)
Definition F2Q (x : float) : option Q :=
  match x with
  | S754_zero _ => Some 0%Q
  | S754_finite s m e => Some (inject_Z (cond_Zopp s (Zpos m)) * Qpower 2 e)%Q
  | _ => None
  end.

End PyFloat.

Import PyFloat.

(** ** Lists and dictionaries *)

(** [l[i]] for a list: negative indices count from the end. *)
Definition py_getitem {A : Type} (l : list A) (i : Z) : result A :=
  let n := Z.of_nat (List.length l) in
  let j := if i <? 0 then i + n else i in
  if (0 <=? j) && (j <? n) then
    match nth_error l (Z.to_nat j) with
    | Some a => Ok a
    | None => Raise IndexError
    end
  else Raise IndexError.

(** ** Zodiac projection *)

Definition SIGN_ORDER : list string :=
  [ "Aries"; "Taurus"; "Gemini"; "Cancer"; "Leo"; "Virgo"; "Libra";
    "Scorpio"; "Sagittarius"; "Capricorn"; "Aquarius"; "Pisces" ].

Local Open Scope py_scope.

Definition _longitude_to_sign (longitude : float) : result (string * float) :=
  normalized <- py_mod longitude (of_Z 360) ;;
  q <- py_floordiv normalized (of_Z 30) ;;
  sign_index <- py_int q ;;
  degree_in_sign <- py_mod normalized (of_Z 30) ;;
  s <- py_getitem SIGN_ORDER sign_index ;;
  Ok (s, degree_in_sign).

(** ** Dictionaries

    A Python [dict] keeps its keys in insertion order; assigning to a key
    that is present keeps its position. *)

Definition dict (V : Type) : Type := list (string * V).

Fixpoint dict_get {V : Type} (d : dict V) (k : string) : option V :=
  match d with
  | [] => None
  | (k', v) :: d' => if String.eqb k' k then Some v else dict_get d' k
  end.

Fixpoint dict_set {V : Type} (d : dict V) (k : string) (v : V) : dict V :=
  match d with
  | [] => [(k, v)]
  | (k', v') :: d' =>
      if String.eqb k' k then (k', v) :: d' else (k', v') :: dict_set d' k v
  end.

Definition keys {V : Type} (d : dict V) : list string := map fst d.
Definition values {V : Type} (d : dict V) : list V := map snd d.

(** An inner dictionary of a chart: it has at most the keys ["sign"] (a
    [str]) and ["degree"] (a [float]). *)
Record entry : Type := {
  sign : option string;
  degree : option float
}.

(** [{"sign": sign, "degree": degree}] *)
Definition placement (s : string) (d : float) : entry :=
  {| sign := Some s; degree := Some d |}.

(** [Dict[str, Dict[str, float]]] *)
Definition chart : Type := dict entry.

(** ** Inputs and the external world *)

Record datetime : Type := {
  year : Z; month : Z; day : Z; hour : Z; minute : Z; second : Z
}.

Record NatalInputs : Type := {
  name : string;
  birth_datetime : datetime;
  latitude : float;
  longitude : float;
  timezone : string
}.

(** The calls into skyfield and pytz.  Each one returns a value or raises. *)
Record World : Type := {
  Ephemeris : Type;
  Target : Type;
  Timescale : Type;
  Tzinfo : Type;
  Aware : Type;
  Time : Type;
  Topos : Type;
  Observer : Type;
  StarT : Type;
  (** [load(filename)] *)
  load : string -> result Ephemeris;
  (** [load.timescale()] *)
  load_timescale : result Timescale;
  (** [pytz.timezone(name)] *)
  pytz_timezone : string -> result Tzinfo;
  (** [tz.localize(dt)] *)
  localize : Tzinfo -> datetime -> result Aware;
  (** [dt.astimezone(pytz.UTC)] *)
  astimezone_utc : Aware -> result Aware;
  (** [ts.from_datetime(dt)] *)
  from_datetime : Timescale -> Aware -> result Time;
  (** [ephemeris[key]] *)
  ephemeris_getitem : Ephemeris -> string -> result Target;
  (** [wgs84.latlon(latitude, longitude)] *)
  wgs84_latlon : float -> float -> result Topos;
  (** [earth + topos] *)
  vector_sum : Target -> Topos -> result Observer;
  (** [observer.at(t).observe(target).apparent().ecliptic_latlon()[1].degrees] *)
  ecliptic_lon_degrees : Observer -> Time -> Target -> result float;
  (** [Star(ecliptic_latlon=(lat, lon))] *)
  Star : float -> float -> result StarT;
  (** [alt, az, _ = observer.at(t).observe(star).apparent().altaz()], then
      [(alt.degrees, az.degrees)] *)
  altaz_degrees : Observer -> Time -> StarT -> result (float * float)
}.

(** ** Ascendant estimator *)

(** [range(a, b)] *)
Definition range (a b : Z) : list Z :=
  map (fun i => a + Z.of_nat i) (seq 0 (Z.to_nat (b - a))).

(** [[x * 0.5 for x in range(0, 720)]] *)
Definition candidates : list float :=
  map (fun x => mul (of_Z x) half) (range 0 720).

(** [except (AttributeError, TypeError, ValueError)] *)
Definition candidate_faults (e : exn) : bool :=
  match e with
  | AttributeError | TypeError | ValueError => true
  | _ => false
  end.

(** [abs(alt.degrees) + abs(az.degrees - 90)] *)
Definition score (alt az : float) : float :=
  add (abs alt) (abs (sub az (of_Z 90))).

Section Estimator.
Variable w : World.
Variable observer : Observer w.
Variable ts_time : Time w.

(** The two calls inside the inner [try]. *)
Definition observe_candidate (longitude : float) : result (float * float) :=
  star <- Star w zero longitude ;;
  altaz_degrees w observer ts_time star.

(** One iteration of the loop on the state
    [(best_score, best_longitude)]. *)
Definition try_candidate (best : float * float) (longitude : float)
    : result (float * float) :=
  try_except
    (obs <- observe_candidate longitude ;;
     let sc := score (fst obs) (snd obs) in
     if ltb sc (fst best) then Ok (sc, longitude) else Ok best)
    candidate_faults
    (fun _ => Ok best).

Fixpoint scan (cands : list float) (best : float * float)
    : result (float * float) :=
  match cands with
  | [] => Ok best
  | longitude :: rest =>
      best' <- try_candidate best longitude ;;
      scan rest best'
  end.

(** The body of the outer [try] over a list of candidates. *)
Definition search (cands : list float) : result (string * float) :=
  best <- scan cands (inf, zero) ;;
  _longitude_to_sign (snd best).

Definition _best_match_ascendant : result (string * float) :=
  try_except (search candidates) any_Exception
    (fun _ => Ok ("Aries", zero)).
End Estimator.

(** ** Chart computation *)

Definition _safe_load_ephemeris (w : World) : result (option (Ephemeris w)) :=
  try_except
    (eph <- load w "de421.bsp" ;; Ok (Some eph))
    any_Exception
    (fun _ => Ok None).

Definition PLANET_NAMES : list string :=
  [ "Sun"; "Moon"; "Mercury"; "Venus"; "Mars"; "Jupiter"; "Saturn";
    "Uranus"; "Neptune"; "Pluto" ].

Definition _placeholder_planets : chart :=
  let placeholder :=
    fold_left (fun d name => dict_set d name (placement "Unknown" zero))
      PLANET_NAMES [] in
  dict_set placeholder "Ascendant" (placement "Unknown" zero).

(** The keys of the [bodies] literal with the ephemeris key each one is
    looked up under. *)
Definition BODY_KEYS : list (string * string) :=
  [ ("Sun", "sun"); ("Moon", "moon"); ("Mercury", "mercury");
    ("Venus", "venus"); ("Mars", "mars");
    ("Jupiter", "jupiter barycenter"); ("Saturn", "saturn barycenter");
    ("Uranus", "uranus barycenter"); ("Neptune", "neptune barycenter");
    ("Pluto", "pluto barycenter") ].

Section Chart.
Variable w : World.

(** The [bodies] dictionary literal: the lookups happen in order. *)
Fixpoint lookup_bodies (ephemeris : Ephemeris w)
    (table : list (string * string)) (bodies : dict (Target w))
    : result (dict (Target w)) :=
  match table with
  | [] => Ok bodies
  | (name, key) :: table' =>
      target <- ephemeris_getitem w ephemeris key ;;
      lookup_bodies ephemeris table' (dict_set bodies name target)
  end.

(** The loop [for name, target in bodies.items()]. *)
Fixpoint place_bodies (observer : Observer w) (ts_time : Time w)
    (items : list (string * Target w)) (planets : chart) : result chart :=
  match items with
  | [] => Ok planets
  | (name, target) :: items' =>
      ecliptic_lon <- ecliptic_lon_degrees w observer ts_time target ;;
      sd <- _longitude_to_sign ecliptic_lon ;;
      place_bodies observer ts_time items'
        (dict_set planets name (placement (fst sd) (snd sd)))
  end.

(** The body of the [try] block of [compute_natal_chart]. *)
Definition chart_body (ephemeris : Ephemeris w) (inputs : NatalInputs)
    : result chart :=
  ts <- load_timescale w ;;
  tz <- pytz_timezone w (timezone inputs) ;;
  localized_dt <- localize w tz (birth_datetime inputs) ;;
  utc_dt <- astimezone_utc w localized_dt ;;
  ts_time <- from_datetime w ts utc_dt ;;
  earth <- ephemeris_getitem w ephemeris "earth" ;;
  topos <- wgs84_latlon w (latitude inputs) (longitude inputs) ;;
  observer <- vector_sum w earth topos ;;
  bodies <- lookup_bodies ephemeris BODY_KEYS [] ;;
  planets <- place_bodies observer ts_time bodies [] ;;
  asc <- _best_match_ascendant w observer ts_time ;;
  Ok (dict_set planets "Ascendant" (placement (fst asc) (snd asc))).

Definition compute_natal_chart (inputs : NatalInputs) : result chart :=
  ephemeris <- _safe_load_ephemeris w ;;
  match ephemeris with
  | None => Ok _placeholder_planets
  | Some eph =>
      try_except (chart_body eph inputs) any_Exception
        (fun _ => Ok _placeholder_planets)
  end.
End Chart.

(** ** Row synthesizer *)

Definition SIGN_ELEMENTS : dict string :=
  [ ("Aries", "Fire"); ("Leo", "Fire"); ("Sagittarius", "Fire");
    ("Taurus", "Earth"); ("Virgo", "Earth"); ("Capricorn", "Earth");
    ("Gemini", "Air"); ("Libra", "Air"); ("Aquarius", "Air");
    ("Cancer", "Water"); ("Scorpio", "Water"); ("Pisces", "Water") ].

Definition SIGN_MODALITIES : dict string :=
  [ ("Aries", "Cardinal"); ("Cancer", "Cardinal"); ("Libra", "Cardinal");
    ("Capricorn", "Cardinal");
    ("Taurus", "Fixed"); ("Leo", "Fixed"); ("Scorpio", "Fixed");
    ("Aquarius", "Fixed");
    ("Gemini", "Mutable"); ("Virgo", "Mutable"); ("Sagittarius", "Mutable");
    ("Pisces", "Mutable") ].

Definition SIGN_DATE_RANGES : dict string :=
  [ ("Aries", "Mar 21 - Apr 19"); ("Taurus", "Apr 20 - May 20");
    ("Gemini", "May 21 - Jun 20"); ("Cancer", "Jun 21 - Jul 22");
    ("Leo", "Jul 23 - Aug 22"); ("Virgo", "Aug 23 - Sep 22");
    ("Libra", "Sep 23 - Oct 22"); ("Scorpio", "Oct 23 - Nov 21");
    ("Sagittarius", "Nov 22 - Dec 21"); ("Capricorn", "Dec 22 - Jan 19");
    ("Aquarius", "Jan 20 - Feb 18"); ("Pisces", "Feb 19 - Mar 20") ].

Definition CHART_RULERS : dict string :=
  [ ("Aries", "Mars"); ("Taurus", "Venus"); ("Gemini", "Mercury");
    ("Cancer", "Moon"); ("Leo", "Sun"); ("Virgo", "Mercury");
    ("Libra", "Venus"); ("Scorpio", "Pluto"); ("Sagittarius", "Jupiter");
    ("Capricorn", "Saturn"); ("Aquarius", "Uranus"); ("Pisces", "Neptune") ].

(** [d.get(k, default)] *)
Definition get_default {V : Type} (d : dict V) (k : string) (default : V) : V :=
  match dict_get d k with
  | Some v => v
  | None => default
  end.

(** [data.get("sign", default)] *)
Definition sign_or (data : entry) (default : string) : string :=
  match sign data with
  | Some s => s
  | None => default
  end.

(** [totals[k] += n] *)
Definition dict_incr (totals : dict Z) (k : string) (n : Z) : result (dict Z) :=
  match dict_get totals k with
  | Some v => Ok (dict_set totals k (v + n))
  | None => Raise KeyError
  end.

(** [max(totals, key=totals.get)]: the first key whose value is maximal. *)
Fixpoint max_key_from (d : dict Z) (best : string) (best_v : Z) : string :=
  match d with
  | [] => best
  | (k, v) :: d' =>
      if best_v <? v then max_key_from d' k v else max_key_from d' best best_v
  end.

Definition max_key (d : dict Z) : result string :=
  match d with
  | [] => Raise ValueError
  | (k, v) :: d' => Ok (max_key_from d' k v)
  end.

Definition ELEMENT_WEIGHTS : dict Z :=
  [ ("Sun", 3); ("Moon", 3); ("Ascendant", 3); ("Mercury", 2); ("Venus", 2);
    ("Mars", 2) ].

Fixpoint element_totals (items : chart) (totals : dict Z) : result (dict Z) :=
  match items with
  | [] => Ok totals
  | (planet, data) :: items' =>
      let element := get_default SIGN_ELEMENTS (sign_or data "") "Earth" in
      totals' <- dict_incr totals element (get_default ELEMENT_WEIGHTS planet 1) ;;
      element_totals items' totals'
  end.

Definition _dominant_element (planets : chart) : result string :=
  totals <- element_totals planets
              [("Fire", 0); ("Earth", 0); ("Air", 0); ("Water", 0)] ;;
  max_key totals.

Fixpoint modality_totals (vals : list entry) (totals : dict Z)
    : result (dict Z) :=
  match vals with
  | [] => Ok totals
  | data :: vals' =>
      match dict_get SIGN_MODALITIES (sign_or data "") with
      | Some modality =>
          if String.eqb modality "" then modality_totals vals' totals
          else (totals' <- dict_incr totals modality 1 ;;
                modality_totals vals' totals')
      | None => modality_totals vals' totals
      end
  end.

Definition _dominant_modality (planets : chart) : result string :=
  totals <- modality_totals (values planets)
              [("Cardinal", 0); ("Fixed", 0); ("Mutable", 0)] ;;
  max_key totals.

Definition build_csv_row (planets : chart) (inputs : NatalInputs)
    : result (dict string) :=
  let planet_sign (planet : string) : string :=
    match dict_get planets planet with
    | Some data => sign_or data "Unknown"
    | None => "Unknown"
    end in
  let sun_sign := planet_sign "Sun" in
  let moon_sign := planet_sign "Moon" in
  let rising_sign := planet_sign "Ascendant" in
  dominant_element <- _dominant_element planets ;;
  dominant_modality <- _dominant_modality planets ;;
  let chart_ruler := get_default CHART_RULERS rising_sign "" in
  Ok [ ("Name", name inputs);
       ("SunSign", sun_sign);
       ("MoonSign", moon_sign);
       ("Rising", rising_sign);
       ("DateRange", get_default SIGN_DATE_RANGES sun_sign "");
       ("Mercury", planet_sign "Mercury");
       ("Venus", planet_sign "Venus");
       ("Mars", planet_sign "Mars");
       ("Jupiter", planet_sign "Jupiter");
       ("Saturn", planet_sign "Saturn");
       ("Uranus", planet_sign "Uranus");
       ("Neptune", planet_sign "Neptune");
       ("Pluto", planet_sign "Pluto");
       ("NorthNode", "Calculated node data unavailable in offline mode");
       ("Chiron", "Calculated Chiron data unavailable in offline mode");
       ("Element", dominant_element);
       ("Modality", dominant_modality);
       ("DominantPlanet", if String.eqb sun_sign "" then "" else "Sun");
       ("ChartRuler", chart_ruler);
       ("SoulPurpose",
        "Evolve through " ++ sun_sign ++ " virtues while rising as "
          ++ rising_sign ++ ".");
       ("ShadowWork",
        "Integrate the lessons of " ++ planet_sign "Pluto" ++ " and "
          ++ planet_sign "Saturn" ++ ".");
       ("LifeLesson",
        "Discipline of " ++ planet_sign "Saturn" ++ " in a "
          ++ dominant_modality ++ " path.");
       ("CoreWound", "Chiron themes require further calculation.");
       ("GiftToWorld",
        "Jupiter in " ++ planet_sign "Jupiter" ++ " expands your influence.") ].

(** ** Definitions used in the statements *)

Local Open Scope list_scope.

(** The sign bit of a float that is not negative ([nan] counts as such). *)
Definition nonneg (x : float) : Prop := signbit x = false.

(** The score of a candidate, when its observation does not raise. *)
Definition candidate_score (w : World) (observer : Observer w)
    (ts_time : Time w) (longitude : float) : option float :=
  match observe_candidate w observer ts_time longitude with
  | Ok obs => Some (score (fst obs) (snd obs))
  | Raise _ => None
  end.

(** The observation of a candidate returns or raises one of the exceptions
    of the inner [except] clause. *)
Definition skippable {A : Type} (r : result A) : bool :=
  match r with
  | Ok _ => true
  | Raise e => candidate_faults e
  end.

(** State of the loop after the candidates [done]. *)
Definition scanned (w : World) (observer : Observer w) (ts_time : Time w)
    (done : list float) (best : float * float) : Prop :=
  (forall c s, In c done -> candidate_score w observer ts_time c = Some s ->
               ltb s (fst best) = false) /\
  ((fst best = inf /\ snd best = zero) \/
   (exists pre post,
      done = pre ++ snd best :: post /\
      candidate_score w observer ts_time (snd best) = Some (fst best) /\
      ltb (fst best) inf = true /\
      forall c s, In c pre -> candidate_score w observer ts_time c = Some s ->
                  leb s (fst best) = false)).

(** The projection of [c] returns. *)
Definition projects (c : float) : bool :=
  match _longitude_to_sign c with
  | Ok _ => true
  | Raise _ => false
  end.

(** What the grid of candidates is, checked candidate by candidate: the
    [k]-th candidate denotes [k/2], and its projection is the sign of index
    [k / 60] with the degree [(k mod 60) / 2]. *)
Definition grid_check (k : nat) : bool :=
  let c := nth k candidates zero in
  match F2Q c, _longitude_to_sign c with
  | Some q, Ok (s, d) =>
      Qeq_bool q (Z.of_nat k # 2) &&
      String.eqb s (nth (k / 60) SIGN_ORDER "") &&
      match F2Q d with
      | Some qd => Qeq_bool qd (Z.of_nat (k mod 60) # 2)
      | None => false
      end
  | _, _ => false
  end.

(** The same as a proposition. *)
Definition grid_fact (k : nat) : Prop :=
  exists q d qd,
    F2Q (nth k candidates zero) = Some q /\ (q == Z.of_nat k # 2)%Q /\
    _longitude_to_sign (nth k candidates zero)
      = Ok (nth (k / 60) SIGN_ORDER "", d) /\
    F2Q d = Some qd /\ (qd == Z.of_nat (k mod 60) # 2)%Q.

(** ** A concrete world

    A deterministic stand-in for skyfield and pytz, used to run the
    definitions: the ephemeris knows the eleven targets, two zone names are
    valid, and candidate [lon] is seen at altitude [lon - 45] and azimuth
    [90].  [load_fault] makes the ephemeris load raise; [star_fault] makes
    the construction of a candidate point raise. *)

(** Ecliptic longitudes, in degrees, by ephemeris key. *)
Definition demo_longitudes : dict Z :=
  [ ("sun", 34); ("moon", 338); ("mercury", 15); ("venus", 10); ("mars", 58);
    ("jupiter barycenter", 316); ("saturn barycenter", 236);
    ("uranus barycenter", 257); ("neptune barycenter", 273);
    ("pluto barycenter", 213) ].

Definition demo_world (load_fault : option exn)
    (star_fault : float -> option exn) : World :=
  {| Ephemeris := unit;
     Target := string;
     Timescale := unit;
     Tzinfo := string;
     Aware := datetime;
     Time := datetime;
     Topos := float * float;
     Observer := float * float;
     StarT := float;
     load := fun _ => match load_fault with
                      | Some e => Raise e
                      | None => Ok tt
                      end;
     load_timescale := Ok tt;
     pytz_timezone := fun zone =>
       if String.eqb zone "UTC" || String.eqb zone "America/New_York"
       then Ok zone else Raise KeyError;
     localize := fun _ dt => Ok dt;
     astimezone_utc := fun dt => Ok dt;
     from_datetime := fun _ dt => Ok dt;
     ephemeris_getitem := fun _ key =>
       if String.eqb key "earth" then Ok key
       else match dict_get demo_longitudes key with
            | Some _ => Ok key
            | None => Raise KeyError
            end;
     wgs84_latlon := fun lat lon => Ok (lat, lon);
     vector_sum := fun _ topos => Ok topos;
     ecliptic_lon_degrees := fun _ _ target =>
       match dict_get demo_longitudes target with
       | Some z => Ok (of_Z z)
       | None => Raise ValueError
       end;
     Star := fun _ lon => match star_fault lon with
                          | Some e => Raise e
                          | None => Ok lon
                          end;
     altaz_degrees := fun _ _ star => Ok (sub star (of_Z 45), of_Z 90) |}.

(** No construction of a candidate point raises. *)
Definition no_fault (_ : float) : option exn := None.

(** The construction of the first candidate (longitude 0.0) raises [e]. *)
Definition first_faults (e : exn) (lon : float) : option exn :=
  if is_zero lon then Some e else None.

(** Every construction of a candidate point raises [e]. *)
Definition all_fault (e : exn) (_ : float) : option exn := Some e.

(** Latitude 40.7128 and longitude -74.0060. *)
Definition demo_observer : float * float :=
  (div (of_Z 407128) (of_Z 10000), div (of_Z (-74006)) (of_Z 1000)).

(** 1985-04-24 19:55. *)
Definition demo_time : datetime :=
  {| year := 1985; month := 4; day := 24; hour := 19; minute := 55;
     second := 0 |}.

Definition demo_inputs (zone : string) : NatalInputs :=
  {| name := "Ada";
     birth_datetime := demo_time;
     latitude := fst demo_observer;
     longitude := snd demo_observer;
     timezone := zone |}.

(** The first candidate raises an exception outside the inner clause. *)
Definition demo_abort : World := demo_world None (first_faults ZeroDivisionError).

(** The candidates whose observation does not raise. *)
Definition remaining (w : World) (observer : Observer w) (ts_time : Time w)
    : list float :=
  filter (fun c => match observe_candidate w observer ts_time c with
                   | Ok _ => true
                   | Raise _ => false
                   end) candidates.

(** C4 as it is stated: whatever is raised for a candidate, the result is
    the one of the search over the candidates that did not raise. *)
Definition continues_past_faults (w : World) (observer : Observer w)
    (ts_time : Time w) : Prop :=
  _best_match_ascendant w observer ts_time
  = search w observer ts_time (remaining w observer ts_time).

(** The keys after [d[k] = v]. *)
Definition add_key (ks : list string) (k : string) : list string :=
  if existsb (fun k' => String.eqb k' k) ks then ks else ks ++ [k].

(** An entry of a chart as the output record describes it: a sign among the
    twelve or the sentinel, and a degree that denotes a rational of
    [[0, 30)]. *)
Definition valid_entry (e : entry) : Prop :=
  exists s d q,
    e = placement s d /\
    (In s SIGN_ORDER \/ s = "Unknown") /\
    F2Q d = Some q /\ (0 <= q)%Q /\ (q < 30)%Q.

(** The chart of [demo_inputs] in the world without faults. *)
Definition demo_chart : chart :=
  Eval vm_compute in
    match compute_natal_chart (demo_world None no_fault)
            (demo_inputs "America/New_York") with
    | Ok c => c
    | Raise _ => []
    end.

(** The projection as it is described, over exact rationals: the longitude
    is reduced modulo 360, the sign index is the floor of the thirtieth, the
    degree is the remainder modulo 30. *)
Definition spec_sign_of (L : Q) : string * Q :=
  let normalized := (L - 360 * inject_Z (Qfloor (L / 360)))%Q in
  let index := Qfloor (normalized / 30) in
  (nth (Z.to_nat index) SIGN_ORDER "", (normalized - 30 * inject_Z index)%Q).

(** The code agrees with the description at the [k]-th candidate. *)
Definition refines_at (k : nat) : bool :=
  let c := nth k candidates zero in
  match F2Q c, _longitude_to_sign c with
  | Some q, Ok (s, d) =>
      String.eqb s (fst (spec_sign_of q)) &&
      match F2Q d with
      | Some qd => Qeq_bool qd (snd (spec_sign_of q))
      | None => false
      end
  | _, _ => false
  end.

(** The float [-1e-20]. *)
Definition tiny_negative : float :=
  Eval vm_compute in div (of_Z (-1)) (of_Z (10 ^ 20)).

(** The chart with every body and the ascendant at 0.0 of sign [s]. *)
Definition all_in (s : string) : chart :=
  map (fun body => (body, placement s zero)) (PLANET_NAMES ++ ["Ascendant"]).

(** ** Definitions for the properties of the row synthesizer *)

(** The keys of the two [totals] dictionaries, in their order. *)
Definition ELEMENTS : list string := ["Fire"; "Earth"; "Air"; "Water"].
Definition MODALITIES : list string := ["Cardinal"; "Fixed"; "Mutable"].

(** The element an entry is counted under by [_dominant_element]. *)
Definition element_of (data : entry) : string :=
  get_default SIGN_ELEMENTS (sign_or data "") "Earth".

(** [weights.get(planet, 1)] *)
Definition weight_of (planet : string) : Z :=
  get_default ELEMENT_WEIGHTS planet 1.

(** The sum of the weights of the entries counted under [el]. *)
Fixpoint element_weight (el : string) (planets : chart) : Z :=
  match planets with
  | [] => 0
  | (planet, data) :: rest =>
      (if String.eqb (element_of data) el then weight_of planet else 0)
      + element_weight el rest
  end.

(** The number of entries whose sign has the modality [mo]. *)
Fixpoint modality_count (mo : string) (vals : list entry) : Z :=
  match vals with
  | [] => 0
  | data :: rest =>
      (match dict_get SIGN_MODALITIES (sign_or data "") with
       | Some m => if String.eqb m mo then 1 else 0
       | None => 0
       end)
      + modality_count mo rest
  end.

(** The sign of the entry is one of the twelve. *)
Definition known_sign (data : entry) : bool :=
  existsb (String.eqb (sign_or data "")) SIGN_ORDER.

(** [k] is the first key of [l] at which [f] is maximal. *)
Definition first_maximal (f : string -> Z) (l : list string) (k : string)
    : Prop :=
  exists pre post,
    l = pre ++ k :: post /\
    (forall k', In k' pre -> f k' < f k) /\
    (forall k', In k' post -> f k' <= f k).

(** The local function [planet_sign] of [build_csv_row]. *)
Definition planet_sign (planets : chart) (planet : string) : string :=
  match dict_get planets planet with
  | Some data => sign_or data "Unknown"
  | None => "Unknown"
  end.

(** The columns of the row, in order. *)
Definition CSV_COLUMNS : list string :=
  [ "Name"; "SunSign"; "MoonSign"; "Rising"; "DateRange"; "Mercury"; "Venus";
    "Mars"; "Jupiter"; "Saturn"; "Uranus"; "Neptune"; "Pluto"; "NorthNode";
    "Chiron"; "Element"; "Modality"; "DominantPlanet"; "ChartRuler";
    "SoulPurpose"; "ShadowWork"; "LifeLesson"; "CoreWound"; "GiftToWorld" ].

(** The columns that hold a sign, with the key of the chart each one is
    read from. *)
Definition SIGN_COLUMNS : list (string * string) :=
  [ ("SunSign", "Sun"); ("MoonSign", "Moon"); ("Rising", "Ascendant");
    ("Mercury", "Mercury"); ("Venus", "Venus"); ("Mars", "Mars");
    ("Jupiter", "Jupiter"); ("Saturn", "Saturn"); ("Uranus", "Uranus");
    ("Neptune", "Neptune"); ("Pluto", "Pluto") ].

(** The two calls of the form handler of [streamlit_app.py]:
    [planetary_chart = compute_natal_chart(natal_inputs)], then
    [csv_row = build_csv_row(planetary_chart, natal_inputs)]. *)
Definition natal_csv_row (w : World) (inputs : NatalInputs)
    : result (dict string) :=
  planetary_chart <- compute_natal_chart w inputs ;;
  build_csv_row planetary_chart inputs.

(** The row of the demo chart. *)
Definition demo_row : dict string :=
  Eval vm_compute in
    match build_csv_row demo_chart (demo_inputs "UTC") with
    | Ok row => row
    | Raise _ => []
    end.

(** The chart with the ["degree"] key removed from every entry. *)
Definition without_degrees (planets : chart) : chart :=
  map (fun kv => (fst kv, {| sign := sign (snd kv); degree := None |})) planets.

(** The demo world in which no candidate point can be built. *)
Definition demo_no_star : World := demo_world None (all_fault ZeroDivisionError).

(** The chart of the demo inputs in [demo_no_star]. *)
Definition demo_no_star_chart : chart :=
  Eval vm_compute in
    match compute_natal_chart demo_no_star (demo_inputs "UTC") with
    | Ok c => c
    | Raise _ => []
    end.

(** The demo world with the observation of the bodies replaced. *)
Definition demo_world_with (lon : string -> result float) : World :=
  let base := demo_world None no_fault in
  {| Ephemeris := Ephemeris base;
     Target := string;
     Timescale := Timescale base;
     Tzinfo := Tzinfo base;
     Aware := Aware base;
     Time := Time base;
     Topos := Topos base;
     Observer := Observer base;
     StarT := StarT base;
     load := load base;
     load_timescale := load_timescale base;
     pytz_timezone := pytz_timezone base;
     localize := localize base;
     astimezone_utc := astimezone_utc base;
     from_datetime := from_datetime base;
     ephemeris_getitem := ephemeris_getitem base;
     wgs84_latlon := wgs84_latlon base;
     vector_sum := vector_sum base;
     ecliptic_lon_degrees := fun _ _ target => lon target;
     Star := Star base;
     altaz_degrees := altaz_degrees base |}.

(** Mars is observed at a NaN longitude, the other bodies at 100.0. *)
Definition mars_nan (target : string) : result float :=
  if String.eqb target "mars" then Ok S754_nan else Ok (of_Z 100).

(** ** The estimator against its description *)

(** The score as it is described: the distance of the altitude from 0 plus
    the distance of the azimuth from 90, in binary64. *)
Definition spec_score (alt az : float) : float :=
  add (abs alt) (abs (sub az (of_Z 90))).

(** The estimator as it is described, at a candidate seen on the horizon due
    east: it is the one returned as soon as every other candidate that is
    observed has a nonzero score. *)
Definition selects_perfect_candidate (w : World) (observer : Observer w)
    (ts_time : Time w) : Prop :=
  forall k alt,
    (k < 720)%nat -> is_zero alt = true ->
    observe_candidate w observer ts_time (nth k candidates zero)
      = Ok (alt, of_Z 90) ->
    (forall j alt' az', (j < 720)%nat -> j <> k ->
       observe_candidate w observer ts_time (nth j candidates zero)
         = Ok (alt', az') ->
       is_zero (spec_score alt' az') = false) ->
    _best_match_ascendant w observer ts_time
      = _longitude_to_sign (nth k candidates zero).

(** The construction of the candidate at longitude [x] raises [e]. *)
Definition faults_at (x : float) (e : exn) (lon : float) : option exn :=
  if is_zero (sub lon x) then Some e else None.

(** Candidate 45.0 is seen at altitude 0 and azimuth 90, and the
    construction of candidate 46.0 raises an exception outside the inner
    clause. *)
Definition demo_late_abort : World :=
  demo_world None (faults_at (of_Z 46) ZeroDivisionError).

(** The demo world with the horizon coordinates of the candidate points
    replaced. *)
Definition demo_sky (altaz : float -> float * float) : World :=
  let base := demo_world None no_fault in
  {| Ephemeris := Ephemeris base;
     Target := Target base;
     Timescale := Timescale base;
     Tzinfo := Tzinfo base;
     Aware := Aware base;
     Time := Time base;
     Topos := Topos base;
     Observer := Observer base;
     StarT := float;
     load := load base;
     load_timescale := load_timescale base;
     pytz_timezone := pytz_timezone base;
     localize := localize base;
     astimezone_utc := astimezone_utc base;
     from_datetime := from_datetime base;
     ephemeris_getitem := ephemeris_getitem base;
     wgs84_latlon := wgs84_latlon base;
     vector_sum := vector_sum base;
     ecliptic_lon_degrees := ecliptic_lon_degrees base;
     Star := fun _ lon => Ok lon;
     altaz_degrees := fun _ _ star => Ok (altaz star) |}.

(** Candidate 10.0 lies on the horizon at azimuth 80; the other candidates
    are seen as in the demo world, candidate [lon] at altitude [lon - 45] and
    azimuth 90. *)
Definition decoy (star : float) : float * float :=
  if is_zero (sub star (of_Z 10)) then (zero, of_Z 80)
  else (sub star (of_Z 45), of_Z 90).

Definition demo_decoy : World := demo_sky decoy.

(** Candidate [j] is candidate [k] or its described score is not zero. *)
Definition others_off_target (w : World) (observer : Observer w)
    (ts_time : Time w) (k j : nat) : bool :=
  (j =? k)%nat ||
  match observe_candidate w observer ts_time (nth j candidates zero) with
  | Ok obs => negb (is_zero (spec_score (fst obs) (snd obs)))
  | Raise _ => true
  end.

(** ** Local times at a change of the clocks *)

(** In America/New_York the clocks went from 02:00 to 03:00 on 1985-04-28
    and from 02:00 back to 01:00 on 1985-10-27: the local times of the first
    date from 02:00 to 02:59 do not exist, and those of the second date from
    01:00 to 01:59 occur twice. *)
Definition dst_transition (zone : string) (dt : datetime) : bool :=
  String.eqb zone "America/New_York" && (year dt =? 1985) &&
  (((month dt =? 4) && (day dt =? 28) && (hour dt =? 2)) ||
   ((month dt =? 10) && (day dt =? 27) && (hour dt =? 1))).

(** C10 as it is stated, a local time at a change of the clocks being a
    birth instant that cannot be localized: a zone name that pytz does not
    know or such a local time gives the placeholder. *)
Definition unlocalizable_gives_placeholder (w : World) : Prop :=
  forall inputs : NatalInputs,
    (exists e, pytz_timezone w (timezone inputs) = Raise e) \/
    dst_transition (timezone inputs) (birth_datetime inputs) = true ->
    compute_natal_chart w inputs = Ok _placeholder_planets.

(** 1985-04-28 02:30 in America/New_York, a local time that does not
    exist. *)
Definition skipped_inputs : NatalInputs :=
  {| name := "Ada";
     birth_datetime :=
       {| year := 1985; month := 4; day := 28; hour := 2; minute := 30;
          second := 0 |};
     latitude := fst demo_observer;
     longitude := snd demo_observer;
     timezone := "America/New_York" |}.

(** ** The observation of a run *)

(** The observer and the instant that the [try] block of
    [compute_natal_chart] builds before it looks the bodies up. *)
Definition observation_of (w : World) (ephemeris : Ephemeris w)
    (inputs : NatalInputs) : result (Observer w * Time w) :=
  ts <- load_timescale w ;;
  tz <- pytz_timezone w (timezone inputs) ;;
  localized_dt <- localize w tz (birth_datetime inputs) ;;
  utc_dt <- astimezone_utc w localized_dt ;;
  ts_time <- from_datetime w ts utc_dt ;;
  earth <- ephemeris_getitem w ephemeris "earth" ;;
  topos <- wgs84_latlon w (latitude inputs) (longitude inputs) ;;
  observer <- vector_sum w earth topos ;;
  Ok (observer, ts_time).

(** * The chart computation in a store

    Above, a run reads the answers of the libraries from a [World].  Here
    the same functions run in a store that holds what outlives a call in a
    Python process: the objects that the module's global names are bound to,
    which are mutable lists and dictionaries, and the state of the libraries
    (the files the loader has downloaded, the zones pytz has cached, the
    clock they may read).  An external call takes the state of the libraries
    and gives the next one, also when it raises. *)

(** The module's global tables, by name. *)
Record Globals : Type := {
  sign_order : list string;
  sign_elements : dict string;
  sign_modalities : dict string;
  sign_date_ranges : dict string;
  chart_rulers : dict string
}.

(** The tables as the module's top level binds them. *)
Definition module_globals : Globals :=
  {| sign_order := SIGN_ORDER;
     sign_elements := SIGN_ELEMENTS;
     sign_modalities := SIGN_MODALITIES;
     sign_date_ranges := SIGN_DATE_RANGES;
     chart_rulers := CHART_RULERS |}.

Declare Scope store_scope.
Delimit Scope store_scope with store.

Module Run.

(** The calls into skyfield and pytz, on the state of the libraries. *)
Record Libraries : Type := {
  Ephemeris : Type;
  Target : Type;
  Timescale : Type;
  Tzinfo : Type;
  Aware : Type;
  Time : Type;
  Topos : Type;
  Observer : Type;
  StarT : Type;
  State : Type;
  (** [load(filename)] *)
  load : string -> State -> result Ephemeris * State;
  (** [load.timescale()] *)
  load_timescale : State -> result Timescale * State;
  (** [pytz.timezone(name)] *)
  pytz_timezone : string -> State -> result Tzinfo * State;
  (** [tz.localize(dt)] *)
  localize : Tzinfo -> datetime -> State -> result Aware * State;
  (** [dt.astimezone(pytz.UTC)] *)
  astimezone_utc : Aware -> State -> result Aware * State;
  (** [ts.from_datetime(dt)] *)
  from_datetime : Timescale -> Aware -> State -> result Time * State;
  (** [ephemeris[key]] *)
  ephemeris_getitem : Ephemeris -> string -> State -> result Target * State;
  (** [wgs84.latlon(latitude, longitude)] *)
  wgs84_latlon : float -> float -> State -> result Topos * State;
  (** [earth + topos] *)
  vector_sum : Target -> Topos -> State -> result Observer * State;
  (** [observer.at(t).observe(target).apparent().ecliptic_latlon()[1].degrees] *)
  ecliptic_lon_degrees :
    Observer -> Time -> Target -> State -> result float * State;
  (** [Star(ecliptic_latlon=(lat, lon))] *)
  Star : float -> float -> State -> result StarT * State;
  (** [alt, az, _ = observer.at(t).observe(star).apparent().altaz()], then
      [(alt.degrees, az.degrees)] *)
  altaz_degrees :
    Observer -> Time -> StarT -> State -> result (float * float) * State
}.

Section InStore.
Variable L : Libraries.

Record Store : Type := {
  globals : Globals;
  libs : State L
}.

(** A computation: from a store to a value or an exception, and the store
    it leaves. *)
Definition M (A : Type) : Type := Store -> result A * Store.

Definition ret {A : Type} (a : A) : M A := fun st => (Ok a, st).

(** A step that touches no store: arithmetic on floats, an index into a
    list at hand. *)
Definition pure {A : Type} (r : result A) : M A := fun st => (r, st).

Definition bind {A B : Type} (m : M A) (k : A -> M B) : M B :=
  fun st =>
    match m st with
    | (Ok a, st') => k a st'
    | (Raise e, st') => (Raise e, st')
    end.

(** [try: body / except <classes>: handler]; the handler runs in the store
    the body left. *)
Definition try_except {A : Type} (body : M A) (catches : exn -> bool)
    (handler : exn -> M A) : M A :=
  fun st =>
    match body st with
    | (Ok a, st') => (Ok a, st')
    | (Raise e, st') => if catches e then handler e st' else (Raise e, st')
    end.

(** An external call. *)
Definition call {A : Type} (f : State L -> result A * State L) : M A :=
  fun st =>
    let (r, s) := f (libs st) in (r, {| globals := globals st; libs := s |}).

(** The object a global name is bound to. *)
Definition global {A : Type} (name : Globals -> A) : M A :=
  fun st => (Ok (name (globals st)), st).

Notation "x <- c ;; k" := (bind c (fun x => k))
  (at level 61, c at next level, right associativity) : store_scope.

Local Open Scope store_scope.

Definition _longitude_to_sign (longitude : float) : M (string * float) :=
  normalized <- pure (py_mod longitude (of_Z 360)) ;;
  q <- pure (py_floordiv normalized (of_Z 30)) ;;
  sign_index <- pure (py_int q) ;;
  degree_in_sign <- pure (py_mod normalized (of_Z 30)) ;;
  order <- global sign_order ;;
  s <- pure (py_getitem order sign_index) ;;
  ret (s, degree_in_sign).

Section Estimator.
Variable observer : Observer L.
Variable ts_time : Time L.

Definition observe_candidate (longitude : float) : M (float * float) :=
  star <- call (Star L zero longitude) ;;
  call (altaz_degrees L observer ts_time star).

Definition try_candidate (best : float * float) (longitude : float)
    : M (float * float) :=
  try_except
    (obs <- observe_candidate longitude ;;
     let sc := score (fst obs) (snd obs) in
     if ltb sc (fst best) then ret (sc, longitude) else ret best)
    candidate_faults
    (fun _ => ret best).

Fixpoint scan (cands : list float) (best : float * float)
    : M (float * float) :=
  match cands with
  | [] => ret best
  | longitude :: rest =>
      best' <- try_candidate best longitude ;;
      scan rest best'
  end.

Definition search (cands : list float) : M (string * float) :=
  best <- scan cands (inf, zero) ;;
  _longitude_to_sign (snd best).

Definition _best_match_ascendant : M (string * float) :=
  try_except (search candidates) any_Exception
    (fun _ => ret ("Aries", zero)).
End Estimator.

Definition _safe_load_ephemeris : M (option (Ephemeris L)) :=
  try_except
    (eph <- call (load L "de421.bsp") ;; ret (Some eph))
    any_Exception
    (fun _ => ret None).

(** The dictionary is built anew at every call. *)
Definition _placeholder_planets : M chart :=
  let placeholder :=
    fold_left (fun d name => dict_set d name (placement "Unknown" zero))
      PLANET_NAMES [] in
  ret (dict_set placeholder "Ascendant" (placement "Unknown" zero)).

Fixpoint lookup_bodies (ephemeris : Ephemeris L)
    (table : list (string * string)) (bodies : dict (Target L))
    : M (dict (Target L)) :=
  match table with
  | [] => ret bodies
  | (name, key) :: table' =>
      target <- call (ephemeris_getitem L ephemeris key) ;;
      lookup_bodies ephemeris table' (dict_set bodies name target)
  end.

Fixpoint place_bodies (observer : Observer L) (ts_time : Time L)
    (items : list (string * Target L)) (planets : chart) : M chart :=
  match items with
  | [] => ret planets
  | (name, target) :: items' =>
      ecliptic_lon <- call (ecliptic_lon_degrees L observer ts_time target) ;;
      sd <- _longitude_to_sign ecliptic_lon ;;
      place_bodies observer ts_time items'
        (dict_set planets name (placement (fst sd) (snd sd)))
  end.

Definition chart_body (ephemeris : Ephemeris L) (inputs : NatalInputs)
    : M chart :=
  ts <- call (load_timescale L) ;;
  tz <- call (pytz_timezone L (timezone inputs)) ;;
  localized_dt <- call (localize L tz (birth_datetime inputs)) ;;
  utc_dt <- call (astimezone_utc L localized_dt) ;;
  ts_time <- call (from_datetime L ts utc_dt) ;;
  earth <- call (ephemeris_getitem L ephemeris "earth") ;;
  topos <- call (wgs84_latlon L (latitude inputs) (longitude inputs)) ;;
  observer <- call (vector_sum L earth topos) ;;
  bodies <- lookup_bodies ephemeris BODY_KEYS [] ;;
  planets <- place_bodies observer ts_time bodies [] ;;
  asc <- _best_match_ascendant observer ts_time ;;
  ret (dict_set planets "Ascendant" (placement (fst asc) (snd asc))).

Definition compute_natal_chart (inputs : NatalInputs) : M chart :=
  ephemeris <- _safe_load_ephemeris ;;
  match ephemeris with
  | None => _placeholder_planets
  | Some eph =>
      try_except (chart_body eph inputs) any_Exception
        (fun _ => _placeholder_planets)
  end.

Section Source.
Variable V : Type.

(** What the answers of the libraries are drawn from: the data behind the
    ephemeris, the timescale and the zone database.  The rest of the state
    of the libraries is hidden. *)
Variable source : State L -> V.

(** The answer of an external call is drawn from the source, and the call
    leaves the source as it is. *)
Definition reads_source {A : Type} (f : State L -> result A * State L)
    : Prop :=
  (forall s s', source s = source s' -> fst (f s) = fst (f s')) /\
  (forall s, source (snd (f s)) = source s).

(** Two stores with the same tables and the same source. *)
Definition same_view (st st' : Store) : Prop :=
  globals st = globals st' /\ source (libs st) = source (libs st').

(** A computation whose outcome depends on the store through the module's
    tables and the source only, and which leaves both as they are. *)
Definition quiet {A : Type} (m : M A) : Prop :=
  forall st st',
    same_view st st' ->
    fst (m st) = fst (m st') /\ same_view (snd (m st)) st.

End Source.
End InStore.

Arguments globals {L} _.
Arguments libs {L} _.
Arguments reads_source {L V} source {A} f.
Arguments same_view {L V} source st st'.
Arguments quiet {L V} source {A} m.

(** The libraries answer deterministically: what a call returns or raises
    is a function of its arguments and of the source. *)
Record deterministic (L : Libraries) {V : Type} (source : State L -> V)
    : Prop := {
  det_load : forall f, reads_source source (load L f);
  det_load_timescale : reads_source source (load_timescale L);
  det_pytz_timezone : forall zone, reads_source source (pytz_timezone L zone);
  det_localize : forall tz dt, reads_source source (localize L tz dt);
  det_astimezone_utc : forall dt, reads_source source (astimezone_utc L dt);
  det_from_datetime :
    forall ts dt, reads_source source (from_datetime L ts dt);
  det_ephemeris_getitem :
    forall eph key, reads_source source (ephemeris_getitem L eph key);
  det_wgs84_latlon :
    forall lat lon, reads_source source (wgs84_latlon L lat lon);
  det_vector_sum :
    forall earth topos, reads_source source (vector_sum L earth topos);
  det_ecliptic_lon_degrees :
    forall observer t target,
      reads_source source (ecliptic_lon_degrees L observer t target);
  det_Star : forall lat lon, reads_source source (Star L lat lon);
  det_altaz_degrees :
    forall observer t star,
      reads_source source (altaz_degrees L observer t star)
}.

End Run.

(** A world as libraries: every call answers as in the world and moves the
    state of the libraries by [tick]. *)
Definition libraries_of (w : World) (S : Type) (tick : S -> S)
    : Run.Libraries :=
  {| Run.Ephemeris := Ephemeris w;
     Run.Target := Target w;
     Run.Timescale := Timescale w;
     Run.Tzinfo := Tzinfo w;
     Run.Aware := Aware w;
     Run.Time := Time w;
     Run.Topos := Topos w;
     Run.Observer := Observer w;
     Run.StarT := StarT w;
     Run.State := S;
     Run.load := fun f s => (load w f, tick s);
     Run.load_timescale := fun s => (load_timescale w, tick s);
     Run.pytz_timezone := fun zone s => (pytz_timezone w zone, tick s);
     Run.localize := fun tz dt s => (localize w tz dt, tick s);
     Run.astimezone_utc := fun dt s => (astimezone_utc w dt, tick s);
     Run.from_datetime := fun ts dt s => (from_datetime w ts dt, tick s);
     Run.ephemeris_getitem :=
       fun eph key s => (ephemeris_getitem w eph key, tick s);
     Run.wgs84_latlon := fun lat lon s => (wgs84_latlon w lat lon, tick s);
     Run.vector_sum := fun earth topos s => (vector_sum w earth topos, tick s);
     Run.ecliptic_lon_degrees :=
       fun observer t target s =>
         (ecliptic_lon_degrees w observer t target, tick s);
     Run.Star := fun lat lon s => (Star w lat lon, tick s);
     Run.altaz_degrees :=
       fun observer t star s => (altaz_degrees w observer t star, tick s) |}.

(** The demo world as libraries whose state is a clock, which every call
    advances, and the ephemeris file, which the loader finds or not. *)
Definition demo_libraries : Run.Libraries :=
  let w := demo_world None no_fault in
  let tick := fun s : nat * bool => (S (fst s), snd s) in
  {| Run.Ephemeris := Ephemeris w;
     Run.Target := Target w;
     Run.Timescale := Timescale w;
     Run.Tzinfo := Tzinfo w;
     Run.Aware := Aware w;
     Run.Time := Time w;
     Run.Topos := Topos w;
     Run.Observer := Observer w;
     Run.StarT := StarT w;
     Run.State := nat * bool;
     Run.load := fun f s =>
       (if snd s then load w f else Raise (OtherException "OSError"), tick s);
     Run.load_timescale := fun s => (load_timescale w, tick s);
     Run.pytz_timezone := fun zone s => (pytz_timezone w zone, tick s);
     Run.localize := fun tz dt s => (localize w tz dt, tick s);
     Run.astimezone_utc := fun dt s => (astimezone_utc w dt, tick s);
     Run.from_datetime := fun ts dt s => (from_datetime w ts dt, tick s);
     Run.ephemeris_getitem :=
       fun eph key s => (ephemeris_getitem w eph key, tick s);
     Run.wgs84_latlon := fun lat lon s => (wgs84_latlon w lat lon, tick s);
     Run.vector_sum := fun earth topos s => (vector_sum w earth topos, tick s);
     Run.ecliptic_lon_degrees :=
       fun observer t target s =>
         (ecliptic_lon_degrees w observer t target, tick s);
     Run.Star := fun lat lon s => (Star w lat lon, tick s);
     Run.altaz_degrees :=
       fun observer t star s => (altaz_degrees w observer t star, tick s) |}.

(** The source of the demo libraries: whether the ephemeris file is
    there. *)
Definition demo_source (s : nat * bool) : bool := snd s.

(** A store with the module's tables, the clock at [t] and the ephemeris
    file there or not. *)
Definition demo_store (t : nat) (file : bool) : Run.Store demo_libraries :=
  Run.Build_Store demo_libraries module_globals (t, file).

(** The computation [m], run in a store that holds the module's tables as
    the top level binds them, gives the outcome [r] and leaves the
    tables. *)
Definition refines {L : Run.Libraries} {A : Type} (m : Run.M L A)
    (r : result A) : Prop :=
  forall st,
    Run.globals st = module_globals ->
    fst (m st) = r /\ Run.globals (snd (m st)) = module_globals.

(** The demo inputs under another name. *)
Definition demo_inputs_grace : NatalInputs :=
  {| name := "Grace";
     birth_datetime := demo_time;
     latitude := fst demo_observer;
     longitude := snd demo_observer;
     timezone := "America/New_York" |}.

(** * Properties *)

(** ** Facts on the float operations *)

Module PyFloatFacts.

Lemma iter_xO_pow2 (m d : positive) :
  Zpos (Pos.iter xO m d) = Zpos m * 2 ^ Zpos d.
Proof.
  induction d as [|d IH] using Pos.peano_ind.
  - simpl. lia.
  - rewrite Pos.iter_succ, Pos2Z.inj_succ, Z.pow_succ_r by lia.
    rewrite Pos2Z.inj_xO, IH. lia.
Qed.

(** Aligning a mantissa to a smaller exponent keeps the value. *)
Lemma shl_align_le (m : positive) (e e' : Z) :
  e' <= e ->
  exists mz, shl_align m e e' = (mz, e') /\ Zpos mz = Zpos m * 2 ^ (e - e').
Proof.
  intros Hle. unfold shl_align.
  destruct (e' - e) as [|d|d] eqn:Hd; try lia.
  - assert (e' = e) by lia. subst e'. exists m. split; [reflexivity|].
    rewrite Z.sub_diag. simpl. lia.
  - exists (Pos.iter xO m d). split; [reflexivity|].
    rewrite iter_xO_pow2. f_equal. f_equal. lia.
Qed.

Lemma shl_align_value (m : positive) (e e' : Z) :
  exists mz ez, shl_align m e e' = (mz, ez) /\ ez <= e /\
                Zpos mz = Zpos m * 2 ^ (e - ez).
Proof.
  destruct (Z_le_gt_dec e' e) as [Hle|Hgt].
  - destruct (shl_align_le m e e' Hle) as (mz & H1 & H2).
    exists mz, e'. auto.
  - exists m, e. unfold shl_align.
    destruct (e' - e) as [|d|d] eqn:Hd; try lia.
    repeat split; try lia. rewrite Z.sub_diag. simpl. lia.
Qed.

Lemma normal_value (s : bool) (m : positive) (e : Z) :
  exists mz ez, normal s m e = S754_finite s mz ez /\ ez <= e /\
                Zpos mz = Zpos m * 2 ^ (e - ez).
Proof.
  unfold normal.
  destruct (shl_align_value m e (fexp prec emax (Zpos (digits2_pos m) + e)))
    as (mz & ez & H1 & H2 & H3).
  rewrite H1. exists mz, ez. auto.
Qed.

(** [fmod] by a finite divisor: the result has the sign of the dividend and
    a magnitude below the divisor's. *)
Lemma fmod_finite (sx sy : bool) (mx my : positive) (ex ey : Z) :
  fmod (S754_finite sx mx ex) (S754_finite sy my ey) = S754_zero sx \/
  exists m e, fmod (S754_finite sx mx ex) (S754_finite sy my ey)
              = S754_finite sx m e /\
              e <= ey /\ Zpos m < Zpos my * 2 ^ (ey - e).
Proof.
  unfold fmod.
  set (ez := Z.min ex ey).
  assert (Ha : 0 <= Zpos mx * 2 ^ (ex - ez)) by (apply Z.mul_nonneg_nonneg; [lia|apply Z.pow_nonneg; lia]).
  assert (Hb : 0 < Zpos my * 2 ^ (ey - ez)) by (apply Z.mul_pos_pos; [lia|apply Z.pow_pos_nonneg; lia]).
  pose proof (Z.rem_bound_pos _ _ Ha Hb) as [Hr0 Hr1].
  destruct (Z.rem (Zpos mx * 2 ^ (ex - ez)) (Zpos my * 2 ^ (ey - ez)))
    as [|r|r] eqn:Hr; try lia.
  - left; reflexivity.
  - right.
    destruct (normal_value sx r ez) as (mz & e' & H1 & H2 & H3).
    exists mz, e'. split; [exact H1|].
    assert (Hez : ez <= ey) by (unfold ez; lia).
    split; [lia|].
    rewrite H3.
    replace (ey - e') with ((ey - ez) + (ez - e')) by lia.
    rewrite Z.pow_add_r by lia.
    assert (0 < 2 ^ (ez - e')) by (apply Z.pow_pos_nonneg; lia).
    nia.
Qed.

Lemma binary_round_aux_sign (s : bool) (m e : Z) (l : location) :
  binary_round_aux prec emax s m e l = S754_nan \/
  signbit (binary_round_aux prec emax s m e l) = s.
Proof.
  unfold binary_round_aux.
  destruct (shr_fexp prec emax m e l) as [mrs' e'].
  destruct (shr_fexp prec emax _ e' loc_Exact) as [mrs'' e''].
  destruct (shr_m mrs'') as [|p|p]; auto.
  destruct (e'' <=? emax - prec); auto.
Qed.

Lemma binary_round_sign (s : bool) (m : positive) (e : Z) :
  binary_round prec emax s m e = S754_nan \/
  signbit (binary_round prec emax s m e) = s.
Proof.
  unfold binary_round.
  destruct (shl_align m e _) as [mz ez].
  apply binary_round_aux_sign.
Qed.

Lemma add_neg_pos_nonneg (m my : positive) (e ey : Z) :
  e <= ey -> Zpos m < Zpos my * 2 ^ (ey - e) ->
  nonneg (add (S754_finite true m e) (S754_finite false my ey)).
Proof.
  intros Hle Hlt. unfold nonneg, add, SFadd.
  replace (Z.min e ey) with e by lia.
  destruct (shl_align_le m e e (Z.le_refl e)) as (m1 & E1 & V1).
  destruct (shl_align_le my ey e Hle) as (m2 & E2 & V2).
  rewrite E1, E2. cbn [fst cond_Zopp].
  rewrite Z.sub_diag in V1. simpl in V1.
  destruct (- Zpos m1 + Zpos m2) as [|p|p] eqn:Hs; try lia.
  cbn [binary_normalize].
  destruct (binary_round_sign false p e) as [H|H]; rewrite H; reflexivity.
Qed.

(** [x % y] for a positive finite [y] is never negative, whatever [x]. *)
Lemma py_mod_pos_nonneg (x : float) (my : positive) (ey : Z) (n : float) :
  py_mod x (S754_finite false my ey) = Ok n -> nonneg n.
Proof.
  unfold py_mod, nonneg. cbn [is_zero].
  destruct x as [s|s| |s m e].
  1-3: cbn; intros [= <-]; reflexivity.
  destruct (fmod_finite s false m my e ey) as [Hz|(m' & e' & Hf & Hle & Hlt)].
  - rewrite Hz. cbn. intros [= <-]. reflexivity.
  - rewrite Hf. destruct s; cbn [is_zero negb ltb SFltb SFcompare zero xorb].
    + intros [= <-]. apply (add_neg_pos_nonneg m' my e' ey Hle Hlt).
    + intros [= <-]. reflexivity.
Qed.

Lemma pow2_Q_pos (e : Z) : (0 < 2 ^ e)%Q.
Proof. apply Qpower_0_lt. reflexivity. Qed.

(** The value of a finite float below a divisor, from the comparison of the
    aligned mantissas. *)
Lemma aligned_lt_Q (m my : positive) (e ey : Z) :
  e <= ey -> Zpos m < Zpos my * 2 ^ (ey - e) ->
  (inject_Z (Zpos m) * 2 ^ e < inject_Z (Zpos my) * 2 ^ ey)%Q.
Proof.
  intros Hle Hlt.
  replace ey with ((ey - e) + e) at 1 by lia.
  rewrite Qpower_plus by discriminate.
  rewrite Qmult_assoc.
  apply Qmult_lt_compat_r; [apply pow2_Q_pos|].
  rewrite <- (Zpower_Qpower 2 (ey - e)) by lia.
  rewrite <- inject_Z_mult, <- Zlt_Qlt. exact Hlt.
Qed.

(** [n % y] for a finite [n] that is not negative and a positive finite
    [y]: the result denotes a rational in [[0, y)]. *)
Lemma py_mod_range (n : float) (my : positive) (ey : Z) (d : float) :
  nonneg n -> F2Q n <> None ->
  py_mod n (S754_finite false my ey) = Ok d ->
  exists q, F2Q d = Some q /\
            (0 <= q)%Q /\ (q < inject_Z (Zpos my) * 2 ^ ey)%Q.
Proof.
  unfold nonneg, py_mod. cbn [is_zero].
  assert (Hy : (0 < inject_Z (Zpos my) * 2 ^ ey)%Q).
  { apply Qmult_lt_0_compat; [reflexivity|apply pow2_Q_pos]. }
  destruct n as [s|s| |s m e]; cbn [signbit F2Q]; intros Hs Hfin; try congruence.
  - cbn. intros [= <-]. exists 0%Q. cbn. repeat split; [apply Qle_refl|exact Hy].
  - subst s.
    destruct (fmod_finite false false m my e ey) as [Hz|(m' & e' & Hf & Hle & Hlt)].
    + rewrite Hz. cbn. intros [= <-]. exists 0%Q. cbn.
      repeat split; [apply Qle_refl|exact Hy].
    + rewrite Hf. cbn. intros [= <-].
      exists (inject_Z (Zpos m') * 2 ^ e')%Q. cbn [F2Q cond_Zopp].
      repeat split.
      * apply Qmult_le_0_compat; [discriminate|apply Qlt_le_weak, pow2_Q_pos].
      * apply aligned_lt_Q; assumption.
Qed.

End PyFloatFacts.

(** ** Facts on the zodiac projection *)

Lemma py_getitem_In {A : Type} (l : list A) (i : Z) (a : A) :
  py_getitem l i = Ok a -> In a l.
Proof.
  unfold py_getitem.
  destruct (_ && _); [|discriminate].
  destruct (nth_error l _) as [b|] eqn:Hn; [|discriminate].
  intros [= <-]. eapply nth_error_In; eauto.
Qed.

Lemma of_Z_360 : of_Z 360 = S754_finite false 6333186975989760 (-44).
Proof. reflexivity. Qed.

Lemma of_Z_30 : of_Z 30 = S754_finite false 8444249301319680 (-48).
Proof. reflexivity. Qed.

(** Whenever the projection returns, the sign is one of the twelve and the
    degree denotes a rational in [[0, 30)]. *)
Lemma longitude_to_sign_range (x : float) (s : string) (d : float) :
  _longitude_to_sign x = Ok (s, d) ->
  In s SIGN_ORDER /\
  exists q, F2Q d = Some q /\ (0 <= q)%Q /\ (q < 30)%Q.
Proof.
  unfold _longitude_to_sign. rewrite of_Z_360, of_Z_30.
  destruct (py_mod x _) as [n|] eqn:Hn; cbn [bind]; [|discriminate].
  apply PyFloatFacts.py_mod_pos_nonneg in Hn.
  destruct (py_floordiv n _) as [q0|] eqn:Hq; cbn [bind]; [|discriminate].
  destruct (py_int q0) as [idx|] eqn:Hi; cbn [bind]; [|discriminate].
  destruct (py_mod n _) as [d'|] eqn:Hd; cbn [bind]; [|discriminate].
  destruct (py_getitem SIGN_ORDER idx) as [s'|] eqn:Hg; cbn [bind]; [|discriminate].
  intros [= <- <-]. split; [eapply py_getitem_In; eauto|].
  assert (Hfin : F2Q n <> None).
  { destruct n as [sn|sn| |sn mn en]; cbn; try discriminate.
    - destruct sn; vm_compute in Hq; injection Hq as <-; discriminate.
    - vm_compute in Hq; injection Hq as <-; discriminate. }
  destruct (PyFloatFacts.py_mod_range n _ _ d' Hn Hfin Hd) as (q & Hq1 & Hq2 & Hq3).
  exists q. repeat split; auto.
  eapply Qlt_le_trans; [exact Hq3|]. vm_compute. discriminate.
Qed.

(** ** The order of floats *)

Module FloatOrder.

Ltac compare_cases :=
  repeat match goal with
  | |- context [Pos.compare_cont Eq ?x ?y] =>
      change (Pos.compare_cont Eq x y) with (Pos.compare x y)
  end;
  repeat match goal with
  | |- context [Z.compare ?x ?y] => destruct (Z.compare_spec x y); cbn
  | |- context [Pos.compare ?x ?y] => destruct (Pos.compare_spec x y); cbn
  end;
  intros; try discriminate; try reflexivity; try lia.

Ltac float_cases :=
  repeat match goal with
  | x : float |- _ => destruct x; cbn
  | x : spec_float |- _ => destruct x; cbn
  end;
  repeat match goal with
  | s : bool |- _ => destruct s; cbn
  end;
  try discriminate; try reflexivity.

Lemma le_lt_trans (a b c : float) :
  leb a b = true -> ltb b c = true -> ltb a c = true.
Proof.
  unfold leb, ltb, SFleb, SFltb. float_cases; compare_cases.
Qed.

Lemma lt_irrefl (a : float) : ltb a a = false.
Proof.
  unfold ltb, SFltb. float_cases; compare_cases.
Qed.

Lemma lt_le (a b : float) : ltb a b = true -> leb a b = true.
Proof.
  unfold leb, ltb, SFleb, SFltb. float_cases; compare_cases.
Qed.

Lemma lt_inf (a b : float) : ltb a b = true -> ltb a inf = true.
Proof.
  unfold ltb, SFltb. float_cases.
Qed.

(** A float below [inf] that is neither negative nor zero is above zero. *)
Lemma pos_of_nonzero (a : float) :
  signbit a = false -> ltb a inf = true -> is_zero a = false ->
  ltb zero a = true.
Proof.
  unfold ltb, SFltb. float_cases.
Qed.

Lemma lt_zero_le (a : float) : ltb zero a = true -> leb a zero = false.
Proof.
  unfold leb, ltb, SFleb, SFltb. float_cases.
Qed.

End FloatOrder.

(** ** Facts on the ascendant estimator *)

Lemma score_nonneg (alt az : float) : signbit (score alt az) = false.
Proof.
  unfold score.
  generalize (sub az (of_Z 90)). intros b.
  destruct alt as [sa|sa| |sa ma ea], b as [sb|sb| |sb mb eb]; try reflexivity.
  cbn [abs SFabs]. unfold add, SFadd. cbn [cond_Zopp].
  destruct (shl_align ma ea _) as [m1 e1], (shl_align mb eb _) as [m2 e2].
  cbn [fst Z.add binary_normalize].
  destruct (PyFloatFacts.binary_round_sign false (m1 + m2) (Z.min ea eb))
    as [H|H]; rewrite H; reflexivity.
Qed.

Lemma candidates_project : forallb projects candidates = true.
Proof. vm_compute. reflexivity. Qed.

Lemma candidates_length : List.length candidates = 720%nat.
Proof. reflexivity. Qed.

Section EstimatorFacts.
Variable w : World.
Variable observer : Observer w.
Variable ts_time : Time w.

Local Abbreviation observe := (observe_candidate w observer ts_time).
Local Abbreviation cscore := (candidate_score w observer ts_time).

Lemma try_candidate_skippable (best : float * float) (lon : float) :
  skippable (observe lon) = true ->
  try_candidate w observer ts_time best lon =
  Ok (match cscore lon with
      | Some s => if ltb s (fst best) then (s, lon) else best
      | None => best
      end).
Proof.
  unfold try_candidate, candidate_score, skippable.
  destruct (observe lon) as [obs|e]; cbn.
  - destruct (ltb _ _); reflexivity.
  - intros ->. reflexivity.
Qed.

Lemma try_candidate_abort (best : float * float) (lon : float) (e : exn) :
  observe lon = Raise e -> candidate_faults e = false ->
  try_candidate w observer ts_time best lon = Raise e.
Proof.
  unfold try_candidate. intros -> H. cbn. rewrite H. reflexivity.
Qed.

Lemma not_lt_not_le_below (a b c : float) :
  ltb a c = false -> ltb b c = true -> leb a b = false.
Proof.
  intros Hac Hbc. destruct (leb a b) eqn:Hab; [|reflexivity].
  rewrite (FloatOrder.le_lt_trans a b c Hab Hbc) in Hac. discriminate.
Qed.

Lemma not_le_not_lt (a b : float) : leb a b = false -> ltb a b = false.
Proof.
  intros H. destruct (ltb a b) eqn:Hl; [|reflexivity].
  rewrite (FloatOrder.lt_le a b Hl) in H. discriminate.
Qed.

Lemma scanned_step (done : list float) (best : float * float) (c : float) :
  scanned w observer ts_time done best ->
  scanned w observer ts_time (done ++ [c])
    (match cscore c with
     | Some s => if ltb s (fst best) then (s, c) else best
     | None => best
     end).
Proof.
  intros [Hall Hbest].
  destruct (cscore c) as [s|] eqn:Hc.
  - destruct (ltb s (fst best)) eqn:Hlt.
    + assert (Hle : forall c' s', In c' done -> cscore c' = Some s' ->
                                  leb s' s = false).
      { intros c' s' Hin Hs'.
        eapply not_lt_not_le_below; [eapply Hall; eauto|exact Hlt]. }
      split; cbn [fst snd].
      * intros c' s' Hin Hs'. apply in_app_or in Hin as [Hin|[<-|[]]].
        -- apply not_le_not_lt. eapply Hle; eauto.
        -- rewrite Hc in Hs'. injection Hs' as <-. apply FloatOrder.lt_irrefl.
      * right. exists done, []. repeat split; auto.
        eapply FloatOrder.lt_inf; eauto.
    + split.
      * intros c' s' Hin Hs'. apply in_app_or in Hin as [Hin|[<-|[]]].
        -- eapply Hall; eauto.
        -- rewrite Hc in Hs'. injection Hs' as <-. exact Hlt.
      * destruct Hbest as [H|(pre & post & H1 & H2 & H3 & H4)]; [left; exact H|].
        right. exists pre, (post ++ [c]). repeat split; auto.
        rewrite H1 at 1. rewrite <- app_assoc. reflexivity.
  - split.
    + intros c' s' Hin Hs'. apply in_app_or in Hin as [Hin|[<-|[]]].
      * eapply Hall; eauto.
      * congruence.
    + destruct Hbest as [H|(pre & post & H1 & H2 & H3 & H4)]; [left; exact H|].
      right. exists pre, (post ++ [c]). repeat split; auto.
      rewrite H1 at 1. rewrite <- app_assoc. reflexivity.
Qed.

Lemma scan_scanned (cands done : list float) (best : float * float) :
  (forall c, In c cands -> skippable (observe c) = true) ->
  scanned w observer ts_time done best ->
  exists best', scan w observer ts_time cands best = Ok best' /\
                scanned w observer ts_time (done ++ cands) best'.
Proof.
  revert done best. induction cands as [|c cs IH]; intros done best Hskip Hinv.
  - exists best. rewrite app_nil_r. split; [reflexivity|exact Hinv].
  - cbn [scan]. rewrite try_candidate_skippable by (apply Hskip; left; reflexivity).
    cbn [bind].
    destruct (IH (done ++ [c]) _ (fun c' H => Hskip c' (or_intror H))
                (scanned_step done best c Hinv)) as (best' & Hs & Hi).
    exists best'. split; [exact Hs|].
    rewrite <- app_assoc in Hi. exact Hi.
Qed.

Lemma scanned_init : scanned w observer ts_time [] (inf, zero).
Proof.
  split; [intros c s []|]. left. split; reflexivity.
Qed.

(** An exception outside the inner clause leaves the loop. *)
Lemma scan_abort (cands : list float) (best : float * float) :
  (exists c, In c cands /\ skippable (observe c) = false) ->
  exists e, scan w observer ts_time cands best = Raise e.
Proof.
  revert best. induction cands as [|c cs IH]; intros best (c0 & Hin & Hc0).
  - destruct Hin.
  - cbn [scan].
    destruct (skippable (observe c)) eqn:Hc.
    + rewrite try_candidate_skippable by exact Hc. cbn [bind].
      apply IH. destruct Hin as [<-|Hin]; [congruence|]. exists c0. auto.
    + unfold skippable in Hc. destruct (observe c) as [|e] eqn:Ho; [discriminate|].
      rewrite (try_candidate_abort best c e Ho Hc). exists e. reflexivity.
Qed.

(** The longitude the loop ends with is the initial one or a candidate. *)
Lemma scan_longitude (cands : list float) (best best' : float * float) :
  scan w observer ts_time cands best = Ok best' ->
  snd best' = snd best \/ In (snd best') cands.
Proof.
  revert best. induction cands as [|c cs IH]; intros best.
  - cbn. intros [= <-]. left. reflexivity.
  - cbn [scan]. unfold try_candidate.
    destruct (observe c) as [obs|e]; cbn.
    + destruct (ltb _ _); cbn; intros H; apply IH in H as [H|H]; cbn in H; auto.
    + destruct (candidate_faults e); cbn; [|discriminate].
      intros H; apply IH in H as [H|H]; auto.
Qed.
End EstimatorFacts.

Lemma grid_checked : forallb grid_check (seq 0 720) = true.
Proof. vm_compute. reflexivity. Qed.

Lemma grid_facts (k : nat) : (k < 720)%nat -> grid_fact k.
Proof.
  intros Hk.
  assert (Hc : grid_check k = true).
  { pose proof grid_checked as H. rewrite forallb_forall in H.
    apply H. apply in_seq. lia. }
  unfold grid_check in Hc. unfold grid_fact.
  destruct (F2Q (nth k candidates zero)) as [q|]; [|discriminate].
  destruct (_longitude_to_sign (nth k candidates zero)) as [[s d]|]; [|discriminate].
  destruct (F2Q d) as [qd|] eqn:Hd; [|rewrite andb_false_r in Hc; discriminate].
  apply andb_prop in Hc as [Hc H3]. apply andb_prop in Hc as [H1 H2].
  apply Qeq_bool_eq in H1, H3. apply String.eqb_eq in H2. subst s.
  exists q, d, qd. repeat split; auto.
Qed.

(** ** The ascendant estimator *)

Lemma best_match_of_scan (w : World) (observer : Observer w)
    (ts_time : Time w) (best : float * float) :
  scan w observer ts_time candidates (inf, zero) = Ok best ->
  exists p, _longitude_to_sign (snd best) = Ok p /\
            _best_match_ascendant w observer ts_time = Ok p.
Proof.
  intros Hs. unfold _best_match_ascendant, search. rewrite Hs. cbn [bind].
  assert (Hp : projects (snd best) = true).
  { apply scan_longitude in Hs as [->|Hin]; [reflexivity|].
    pose proof candidates_project as H. rewrite forallb_forall in H. auto. }
  unfold projects in Hp.
  destruct (_longitude_to_sign (snd best)) as [p|]; [|discriminate].
  exists p. split; reflexivity.
Qed.

Lemma candidate_score_signbit (w : World) (observer : Observer w)
    (ts_time : Time w) (c s : float) :
  candidate_score w observer ts_time c = Some s -> signbit s = false.
Proof.
  unfold candidate_score.
  destruct (observe_candidate _ _ _ c) as [obs|]; [|discriminate].
  intros [= <-]. apply score_nonneg.
Qed.

Lemma candidate_score_spec (w : World) (observer : Observer w)
    (ts_time : Time w) (c alt az : float) :
  observe_candidate w observer ts_time c = Ok (alt, az) ->
  candidate_score w observer ts_time c = Some (spec_score alt az).
Proof. unfold candidate_score. intros ->. reflexivity. Qed.

Lemma candidate_score_observed (w : World) (observer : Observer w)
    (ts_time : Time w) (c s : float) :
  candidate_score w observer ts_time c = Some s ->
  exists alt az, observe_candidate w observer ts_time c = Ok (alt, az) /\
                 s = spec_score alt az.
Proof.
  unfold candidate_score.
  destruct (observe_candidate w observer ts_time c) as [[alt az]|];
    [|discriminate].
  intros [= <-]. exists alt, az. split; reflexivity.
Qed.

(** The loop ends on the first candidate of minimal score. *)
Lemma search_selects_first_minimum (w : World) (observer : Observer w)
    (ts_time : Time w) :
  (forall c, In c candidates ->
             skippable (observe_candidate w observer ts_time c) = true) ->
  (exists c s, In c candidates /\
               candidate_score w observer ts_time c = Some s /\
               ltb s inf = true) ->
  exists k s,
    (k < 720)%nat /\
    candidate_score w observer ts_time (nth k candidates zero) = Some s /\
    ltb s inf = true /\
    _best_match_ascendant w observer ts_time
      = _longitude_to_sign (nth k candidates zero) /\
    (forall j s', (j < 720)%nat ->
       candidate_score w observer ts_time (nth j candidates zero) = Some s' ->
       ltb s' s = false) /\
    (forall j s', (j < k)%nat ->
       candidate_score w observer ts_time (nth j candidates zero) = Some s' ->
       leb s' s = false).
Proof.
  intros Hskip (c0 & s0 & Hin0 & Hs0 & Hlt0).
  destruct (scan_scanned w observer ts_time candidates [] (inf, zero) Hskip
              (scanned_init w observer ts_time)) as ([bs bl] & Hscan & Hall & Hbest).
  cbn [app fst snd] in *.
  destruct (best_match_of_scan w observer ts_time _ Hscan) as (p & Hp & Hres).
  cbn [snd] in Hp.
  destruct Hbest as [[-> _]|(pre & post & Hsplit & Hbl & Hfin & Hpre)].
  { rewrite (Hall c0 s0 Hin0 Hs0) in Hlt0. discriminate. }
  pose proof candidates_length as Hlen.
  rewrite Hsplit, length_app in Hlen. cbn [List.length] in Hlen.
  assert (Hnth : nth (List.length pre) candidates zero = bl).
  { rewrite Hsplit. apply nth_middle. }
  exists (List.length pre), bs. rewrite Hnth.
  repeat split; auto; try lia.
  - congruence.
  - intros j s' Hj Hs'. apply (Hall (nth j candidates zero)); [|exact Hs'].
    apply nth_In. rewrite candidates_length. exact Hj.
  - intros j s' Hj Hs'. apply (Hpre (nth j candidates zero)).
    + rewrite Hsplit, app_nth1 by exact Hj. apply nth_In. exact Hj.
    + exact Hs'.
Qed.

(** C3, amended.  When no observation raises outside the inner [except]
    clause and some candidate has a score below [inf], the estimator runs
    over the 720 candidates 0.0, 0.5, ..., 359.5 (the [k]-th one is [k/2],
    projected to the sign of index [k / 60]) and returns the projection of a
    candidate, observed at some altitude and azimuth, such that no
    candidate's [|alt| + |az - 90|] is below its own and no earlier
    candidate's equals it; a candidate seen at altitude 0 and azimuth 90 is
    the one returned when every other candidate has a nonzero
    [|alt| + |az - 90|]. *)
Theorem best_match_ascendant_minimizes (w : World) (observer : Observer w)
    (ts_time : Time w) :
  (forall c, In c candidates ->
             skippable (observe_candidate w observer ts_time c) = true) ->
  (exists c alt az,
     In c candidates /\
     observe_candidate w observer ts_time c = Ok (alt, az) /\
     ltb (spec_score alt az) inf = true) ->
  (List.length candidates = 720%nat /\
   forall k, (k < 720)%nat -> grid_fact k) /\
  (exists k alt az,
     (k < 720)%nat /\
     observe_candidate w observer ts_time (nth k candidates zero)
       = Ok (alt, az) /\
     _best_match_ascendant w observer ts_time
       = _longitude_to_sign (nth k candidates zero) /\
     (forall j alt' az', (j < 720)%nat ->
        observe_candidate w observer ts_time (nth j candidates zero)
          = Ok (alt', az') ->
        ltb (spec_score alt' az') (spec_score alt az) = false) /\
     (forall j alt' az', (j < k)%nat ->
        observe_candidate w observer ts_time (nth j candidates zero)
          = Ok (alt', az') ->
        leb (spec_score alt' az') (spec_score alt az) = false)) /\
  (forall k alt,
     (k < 720)%nat -> is_zero alt = true ->
     observe_candidate w observer ts_time (nth k candidates zero)
       = Ok (alt, of_Z 90) ->
     (forall j alt' az', (j < 720)%nat -> j <> k ->
        observe_candidate w observer ts_time (nth j candidates zero)
          = Ok (alt', az') ->
        is_zero (spec_score alt' az') = false) ->
     _best_match_ascendant w observer ts_time
       = _longitude_to_sign (nth k candidates zero)).
Proof.
  intros Hskip (c0 & alt0 & az0 & Hin0 & Hobs0 & Hlt0).
  destruct (search_selects_first_minimum w observer ts_time Hskip)
    as (k & s & Hk & Hs & Hfin & Hres & Hmin & Hfirst).
  { exists c0, (spec_score alt0 az0). repeat split; auto.
    apply candidate_score_spec. exact Hobs0. }
  destruct (candidate_score_observed w observer ts_time _ _ Hs)
    as (alt & az & Hobs & ->).
  split; [|split].
  - split; [apply candidates_length|apply grid_facts].
  - exists k, alt, az. repeat split; auto.
    + intros j alt' az' Hj Hj'. apply (Hmin j _ Hj).
      apply candidate_score_spec. exact Hj'.
    + intros j alt' az' Hj Hj'. apply (Hfirst j _ Hj).
      apply candidate_score_spec. exact Hj'.
  - intros k' alt' Hk' Halt Hobs' Hothers.
    rewrite Hres.
    destruct (Nat.eq_dec k k') as [->|Hne]; [reflexivity|exfalso].
    assert (Hzero : spec_score alt' (of_Z 90) = zero).
    { destruct alt'; try discriminate; reflexivity. }
    pose proof (Hmin k' _ Hk' (candidate_score_spec w observer ts_time _ _ _ Hobs'))
      as Hnot.
    rewrite Hzero in Hnot.
    rewrite (FloatOrder.pos_of_nonzero (spec_score alt az)) in Hnot;
      [discriminate| |exact Hfin|].
    + eapply candidate_score_signbit; eauto.
    + exact (Hothers k alt az Hk Hne Hobs).
Qed.

Lemma demo_decoy_skippable (c : float) :
  In c candidates ->
  skippable (observe_candidate demo_decoy demo_observer demo_time c) = true.
Proof.
  revert c. apply forallb_forall. vm_compute. reflexivity.
Qed.

Lemma others_off_target_spec (w : World) (observer : Observer w)
    (ts_time : Time w) (k : nat) :
  forallb (others_off_target w observer ts_time k) (seq 0 720) = true ->
  forall j alt' az', (j < 720)%nat -> j <> k ->
    observe_candidate w observer ts_time (nth j candidates zero)
      = Ok (alt', az') ->
    is_zero (spec_score alt' az') = false.
Proof.
  intros H j alt' az' Hj Hne Hobs.
  rewrite forallb_forall in H.
  assert (Hin : In j (seq 0 720)) by (apply in_seq; lia).
  apply H in Hin. unfold others_off_target in Hin.
  rewrite Hobs in Hin. apply Nat.eqb_neq in Hne. rewrite Hne in Hin.
  apply negb_true_iff. exact Hin.
Qed.

(** On [demo_decoy] candidate 10.0 lies on the horizon, ten degrees off
    due east, and candidate 45.0, seen at altitude 0 and azimuth 90, is
    returned: 45 degrees is Taurus at 15.0. *)
Lemma best_match_ascendant_minimizes_witness :
  _best_match_ascendant demo_decoy demo_observer demo_time
    = Ok ("Taurus", of_Z 15).
Proof.
  transitivity (_longitude_to_sign (nth 90 candidates zero));
    [|vm_compute; reflexivity].
  refine (proj2 (proj2 (best_match_ascendant_minimizes
                          demo_decoy demo_observer demo_time _ _))
            90%nat zero _ _ _ _).
  - exact demo_decoy_skippable.
  - exists (nth 90 candidates zero), zero, (of_Z 90). split; [|split].
    + apply nth_In. rewrite candidates_length. lia.
    + vm_compute. reflexivity.
    + reflexivity.
  - lia.
  - reflexivity.
  - vm_compute. reflexivity.
  - apply others_off_target_spec. vm_compute. reflexivity.
Defined.

(** C3 fails as it is stated: on [demo_late_abort] candidate 45.0 is seen at
    altitude 0 and azimuth 90 and every other candidate that is observed has
    a nonzero score, but the construction of candidate 46.0 raises
    [ZeroDivisionError], which ends the search, and the estimator returns
    (Aries, 0.0) where the candidate projects to (Taurus, 15.0). *)
Lemma selects_perfect_candidate_fails :
  ~ selects_perfect_candidate demo_late_abort demo_observer demo_time.
Proof.
  intros H.
  specialize (H 90%nat zero).
  assert (Hres : _best_match_ascendant demo_late_abort demo_observer demo_time
                 = _longitude_to_sign (nth 90 candidates zero)).
  { apply H.
    - lia.
    - reflexivity.
    - vm_compute. reflexivity.
    - apply others_off_target_spec. vm_compute. reflexivity. }
  vm_compute in Hres. discriminate.
Qed.

Lemma scan_all_skipped (w : World) (observer : Observer w) (ts_time : Time w)
    (cands : list float) (best : float * float) :
  (forall c, In c cands ->
     exists e, observe_candidate w observer ts_time c = Raise e /\
               candidate_faults e = true) ->
  scan w observer ts_time cands best = Ok best.
Proof.
  induction cands as [|c cs IH]; intros H; [reflexivity|].
  cbn [scan]. unfold try_candidate.
  destruct (H c (or_introl eq_refl)) as (e & -> & He). cbn. rewrite He. cbn.
  apply IH. intros c' Hc'. apply H. right. exact Hc'.
Qed.

(** C5. The estimator always returns; when every candidate is skipped, or
    when the search raises, it returns the default placement (Aries, 0.0). *)
Theorem best_match_ascendant_default (w : World) (observer : Observer w)
    (ts_time : Time w) :
  (exists p, _best_match_ascendant w observer ts_time = Ok p) /\
  ((forall c, In c candidates ->
      exists e, observe_candidate w observer ts_time c = Raise e /\
                candidate_faults e = true) ->
   _best_match_ascendant w observer ts_time = Ok ("Aries", zero)) /\
  (forall e, search w observer ts_time candidates = Raise e ->
             _best_match_ascendant w observer ts_time = Ok ("Aries", zero)).
Proof.
  unfold _best_match_ascendant. split; [|split].
  - destruct (search w observer ts_time candidates) as [p|e]; cbn; eauto.
  - intros H. unfold search.
    rewrite (scan_all_skipped w observer ts_time candidates (inf, zero) H).
    reflexivity.
  - intros e ->. reflexivity.
Qed.

(** C4 fails as it is stated: on [demo_abort] the first candidate raises
    [ZeroDivisionError], the estimator returns (Aries, 0.0), and the search
    over the other candidates gives (Taurus, 15.0). *)
Lemma continues_past_faults_fails :
  ~ continues_past_faults demo_abort demo_observer demo_time.
Proof.
  unfold continues_past_faults. vm_compute. discriminate.
Qed.

Lemma scan_filter (w : World) (observer : Observer w) (ts_time : Time w)
    (cands : list float) (best : float * float) :
  (forall c, In c cands ->
             skippable (observe_candidate w observer ts_time c) = true) ->
  scan w observer ts_time cands best
  = scan w observer ts_time
      (filter (fun c => match observe_candidate w observer ts_time c with
                        | Ok _ => true
                        | Raise _ => false
                        end) cands) best.
Proof.
  revert best. induction cands as [|c cs IH]; intros best H; [reflexivity|].
  pose proof (H c (or_introl eq_refl)) as Hc.
  assert (Hcs : forall c', In c' cs ->
            skippable (observe_candidate w observer ts_time c') = true)
    by (intros c' Hc'; apply H; right; exact Hc').
  cbn [filter scan]. unfold try_candidate.
  destruct (observe_candidate w observer ts_time c) as [obs|e] eqn:Ho.
  - cbn [scan]. unfold try_candidate. rewrite Ho. cbn.
    destruct (ltb _ _); cbn; apply IH; exact Hcs.
  - cbn in Hc. cbn. rewrite Hc. cbn. apply IH; exact Hcs.
Qed.

(** On the worlds where every candidate is skipped and where the first
    candidate ends the search, the estimator returns the default. *)
Lemma best_match_ascendant_default_examples :
  _best_match_ascendant (demo_world None (all_fault TypeError))
    demo_observer demo_time = Ok ("Aries", zero) /\
  _best_match_ascendant demo_abort demo_observer demo_time
  = Ok ("Aries", zero) /\
  search demo_abort demo_observer demo_time
    (remaining demo_abort demo_observer demo_time) = Ok ("Taurus", of_Z 15).
Proof. vm_compute. repeat split. Qed.

(** C4, amended.  A candidate whose observation raises [AttributeError],
    [TypeError] or [ValueError] is skipped and the search goes on with the
    other candidates; an exception of another class ends the search, and the
    estimator returns the default placement. *)
Theorem candidate_faults_skipped (w : World) (observer : Observer w)
    (ts_time : Time w) :
  ((forall c, In c candidates ->
      skippable (observe_candidate w observer ts_time c) = true) ->
   continues_past_faults w observer ts_time) /\
  ((exists c, In c candidates /\
      skippable (observe_candidate w observer ts_time c) = false) ->
   _best_match_ascendant w observer ts_time = Ok ("Aries", zero)).
Proof.
  split.
  - intros H. unfold continues_past_faults, remaining, search.
    rewrite <- (scan_filter w observer ts_time candidates (inf, zero) H).
    destruct (scan_scanned w observer ts_time candidates [] (inf, zero) H
                (scanned_init w observer ts_time)) as (best & Hs & _).
    destruct (best_match_of_scan w observer ts_time best Hs) as (p & Hp & ->).
    rewrite Hs. cbn [bind]. symmetry. exact Hp.
  - intros H. unfold _best_match_ascendant, search.
    destruct (scan_abort w observer ts_time candidates (inf, zero) H) as (e & ->).
    reflexivity.
Qed.

(** ** Facts on dictionaries *)

Lemma keys_dict_set {V : Type} (d : dict V) (k : string) (v : V) :
  keys (dict_set d k v) = add_key (keys d) k.
Proof.
  unfold add_key, keys. induction d as [|[k' v'] d IH]; [reflexivity|].
  cbn [dict_set map fst existsb].
  destruct (String.eqb k' k); cbn [orb map fst]; [reflexivity|].
  rewrite IH. destruct (existsb _ _); reflexivity.
Qed.

Lemma values_dict_set {V : Type} (P : V -> Prop) (d : dict V) (k : string)
    (v : V) :
  Forall P (values d) -> P v -> Forall P (values (dict_set d k v)).
Proof.
  unfold values. intros Hd Hv. induction d as [|[k' v'] d IH].
  - cbn. constructor; [exact Hv|constructor].
  - cbn [dict_set]. inversion Hd as [|x l Hx Hl]; subst.
    destruct (String.eqb k' k); cbn [map snd]; constructor; auto.
Qed.

(** ** The chart computation *)

Lemma valid_placement_of_projection (x : float) (p : string * float) :
  _longitude_to_sign x = Ok p -> valid_entry (placement (fst p) (snd p)).
Proof.
  destruct p as [s d]. intros H.
  destruct (longitude_to_sign_range x s d H) as (Hs & q & Hq & H0 & H30).
  exists s, d, q. cbn [fst snd]. repeat split; auto.
Qed.

Lemma valid_default : valid_entry (placement "Aries" zero).
Proof.
  exists "Aries", zero, 0%Q. repeat split.
  - left. left. reflexivity.
  - discriminate.
Qed.

Lemma valid_unknown : valid_entry (placement "Unknown" zero).
Proof.
  exists "Unknown", zero, 0%Q. repeat split.
  - right. reflexivity.
  - discriminate.
Qed.

Lemma best_match_valid (w : World) (observer : Observer w) (ts_time : Time w)
    (p : string * float) :
  _best_match_ascendant w observer ts_time = Ok p ->
  valid_entry (placement (fst p) (snd p)).
Proof.
  unfold _best_match_ascendant, search.
  destruct (scan w observer ts_time candidates (inf, zero)) as [best|e]; cbn.
  - destruct (_longitude_to_sign (snd best)) as [p'|e] eqn:Hp; cbn.
    + intros [= <-]. eapply valid_placement_of_projection; eauto.
    + intros [= <-]. apply valid_default.
  - intros [= <-]. apply valid_default.
Qed.

Lemma placeholder_valid : Forall valid_entry (values _placeholder_planets).
Proof.
  repeat constructor; apply valid_unknown.
Qed.

Lemma placeholder_keys :
  keys _placeholder_planets = PLANET_NAMES ++ ["Ascendant"].
Proof. reflexivity. Qed.

Lemma placeholder_values :
  Forall (fun e => e = placement "Unknown" zero) (values _placeholder_planets).
Proof. repeat constructor. Qed.

Section ChartFacts.
Variable w : World.

Lemma lookup_bodies_keys (ephemeris : Ephemeris w)
    (table : list (string * string)) (acc bodies : dict (Target w)) :
  lookup_bodies w ephemeris table acc = Ok bodies ->
  keys bodies = fold_left add_key (map fst table) (keys acc).
Proof.
  revert acc. induction table as [|[nm key] table IH]; intros acc.
  - cbn. intros [= <-]. reflexivity.
  - cbn [lookup_bodies map fst fold_left].
    destruct (ephemeris_getitem w ephemeris key) as [t|e]; cbn [bind]; [|discriminate].
    intros H. apply IH in H. rewrite H, keys_dict_set. reflexivity.
Qed.

Lemma place_bodies_keys (observer : Observer w) (ts_time : Time w)
    (items : list (string * Target w)) (acc planets : chart) :
  place_bodies w observer ts_time items acc = Ok planets ->
  keys planets = fold_left add_key (keys items) (keys acc).
Proof.
  revert acc. induction items as [|[nm t] items IH]; intros acc.
  - cbn. intros [= <-]. reflexivity.
  - cbn [place_bodies keys map fst fold_left].
    destruct (ecliptic_lon_degrees w observer ts_time t) as [lon|e]; cbn [bind]; [|discriminate].
    destruct (_longitude_to_sign lon) as [sd|e]; cbn [bind]; [|discriminate].
    intros H. apply IH in H. rewrite H, keys_dict_set. reflexivity.
Qed.

Lemma place_bodies_valid (observer : Observer w) (ts_time : Time w)
    (items : list (string * Target w)) (acc planets : chart) :
  Forall valid_entry (values acc) ->
  place_bodies w observer ts_time items acc = Ok planets ->
  Forall valid_entry (values planets).
Proof.
  revert acc. induction items as [|[nm t] items IH]; intros acc Hacc.
  - cbn. intros [= <-]. exact Hacc.
  - cbn [place_bodies].
    destruct (ecliptic_lon_degrees w observer ts_time t) as [lon|e]; cbn [bind]; [|discriminate].
    destruct (_longitude_to_sign lon) as [sd|e] eqn:Hsd; cbn [bind]; [|discriminate].
    apply IH. apply values_dict_set; [exact Hacc|].
    eapply valid_placement_of_projection; eauto.
Qed.

(** What a chart that the [try] block returns looks like. *)
Lemma chart_body_shape (ephemeris : Ephemeris w) (inputs : NatalInputs)
    (c : chart) :
  chart_body w ephemeris inputs = Ok c ->
  keys c = PLANET_NAMES ++ ["Ascendant"] /\ Forall valid_entry (values c).
Proof.
  unfold chart_body.
  destruct (load_timescale w) as [ts|]; cbn [bind]; [|discriminate].
  destruct (pytz_timezone w _) as [tz|]; cbn [bind]; [|discriminate].
  destruct (localize w tz _) as [ldt|]; cbn [bind]; [|discriminate].
  destruct (astimezone_utc w ldt) as [udt|]; cbn [bind]; [|discriminate].
  destruct (from_datetime w ts udt) as [t|]; cbn [bind]; [|discriminate].
  destruct (ephemeris_getitem w ephemeris "earth") as [earth|]; cbn [bind]; [|discriminate].
  destruct (wgs84_latlon w _ _) as [topos|]; cbn [bind]; [|discriminate].
  destruct (vector_sum w earth topos) as [obs|]; cbn [bind]; [|discriminate].
  destruct (lookup_bodies w ephemeris BODY_KEYS []) as [bodies|] eqn:Hb; cbn [bind]; [|discriminate].
  destruct (place_bodies w obs t bodies []) as [planets|] eqn:Hp; cbn [bind]; [|discriminate].
  destruct (_best_match_ascendant w obs t) as [asc|] eqn:Ha; cbn [bind]; [|discriminate].
  intros [= <-]. split.
  - rewrite keys_dict_set. apply place_bodies_keys in Hp.
    apply lookup_bodies_keys in Hb. unfold keys in Hp at 2. fold (keys bodies) in Hp.
    rewrite Hp, Hb. reflexivity.
  - apply values_dict_set.
    + eapply place_bodies_valid; [|exact Hp]. constructor.
    + eapply best_match_valid; eauto.
Qed.

Lemma compute_natal_chart_cases (inputs : NatalInputs) :
  compute_natal_chart w inputs = Ok _placeholder_planets \/
  exists eph c, load w "de421.bsp" = Ok eph /\
                chart_body w eph inputs = Ok c /\
                compute_natal_chart w inputs = Ok c.
Proof.
  unfold compute_natal_chart, _safe_load_ephemeris.
  destruct (load w "de421.bsp") as [eph|e]; cbn; [|left; reflexivity].
  destruct (chart_body w eph inputs) as [c|e] eqn:Hc; cbn.
  - right. exists eph, c. auto.
  - left. reflexivity.
Qed.
End ChartFacts.

(** C1. The chart computation always returns a record.  When the ephemeris
    cannot be loaded, or when a step of the computation raises, the record
    is the placeholder, which has the ten bodies and the ascendant, each at
    sign "Unknown" and degree 0.0; every record returned has these eleven
    keys. *)
Theorem compute_natal_chart_never_raises (w : World) (inputs : NatalInputs) :
  (exists c, compute_natal_chart w inputs = Ok c) /\
  (forall e, load w "de421.bsp" = Raise e ->
             compute_natal_chart w inputs = Ok _placeholder_planets) /\
  (forall eph e, load w "de421.bsp" = Ok eph ->
                 chart_body w eph inputs = Raise e ->
                 compute_natal_chart w inputs = Ok _placeholder_planets) /\
  (keys _placeholder_planets = PLANET_NAMES ++ ["Ascendant"] /\
   Forall (fun e => e = placement "Unknown" zero)
     (values _placeholder_planets)) /\
  (forall c, compute_natal_chart w inputs = Ok c ->
             keys c = PLANET_NAMES ++ ["Ascendant"]).
Proof.
  split; [|split; [|split; [|split]]].
  - destruct (compute_natal_chart_cases w inputs) as [H|(eph & c & _ & _ & H)];
      eauto.
  - intros e H. unfold compute_natal_chart, _safe_load_ephemeris.
    rewrite H. reflexivity.
  - intros eph e Hl Hb. unfold compute_natal_chart, _safe_load_ephemeris.
    rewrite Hl. cbn. rewrite Hb. reflexivity.
  - split; [apply placeholder_keys|apply placeholder_values].
  - intros c Hc.
    destruct (compute_natal_chart_cases w inputs) as [H|(eph & c' & _ & Hb & H)];
      rewrite H in Hc; injection Hc as <-.
    + apply placeholder_keys.
    + apply (chart_body_shape w eph inputs c' Hb).
Qed.

(** C6. Every entry of a record the chart computation returns has a sign
    among the twelve or "Unknown" and a degree in [[0, 30)]. *)
Theorem compute_natal_chart_entries_valid (w : World) (inputs : NatalInputs)
    (c : chart) (body : string) (e : entry) :
  compute_natal_chart w inputs = Ok c ->
  In (body, e) c ->
  exists s d q,
    e = placement s d /\
    (In s SIGN_ORDER \/ s = "Unknown") /\
    F2Q d = Some q /\ (0 <= q)%Q /\ (q < 30)%Q.
Proof.
  intros Hc Hin.
  assert (Hall : Forall valid_entry (values c)).
  { destruct (compute_natal_chart_cases w inputs) as [H|(eph & c' & _ & Hb & H)];
      rewrite H in Hc; injection Hc as <-.
    - apply placeholder_valid.
    - apply (chart_body_shape w eph inputs c' Hb). }
  rewrite Forall_forall in Hall. apply (Hall e).
  unfold values. apply in_map_iff. exists (body, e). auto.
Qed.

(** The ascendant entry of [demo_chart]. *)
Lemma compute_natal_chart_entries_valid_witness :
  exists s d q,
    placement "Taurus" (of_Z 15) = placement s d /\
    (In s SIGN_ORDER \/ s = "Unknown") /\
    F2Q d = Some q /\ (0 <= q)%Q /\ (q < 30)%Q.
Proof.
  apply (compute_natal_chart_entries_valid (demo_world None no_fault)
           (demo_inputs "America/New_York") demo_chart "Ascendant").
  - vm_compute. reflexivity.
  - vm_compute. do 10 right. left. reflexivity.
Defined.

(** C10, amended.  A zone name for which [pytz.timezone] raises, or a birth
    instant for which [tz.localize] raises, gives the placeholder record. *)
Theorem timezone_fault_gives_placeholder (w : World) (inputs : NatalInputs) :
  (exists e, pytz_timezone w (timezone inputs) = Raise e) \/
  (exists tz e, pytz_timezone w (timezone inputs) = Ok tz /\
                localize w tz (birth_datetime inputs) = Raise e) ->
  compute_natal_chart w inputs = Ok _placeholder_planets.
Proof.
  intros H. unfold compute_natal_chart, _safe_load_ephemeris.
  destruct (load w "de421.bsp") as [eph|]; cbn; [|reflexivity].
  unfold chart_body.
  destruct (load_timescale w) as [ts|]; cbn; [|reflexivity].
  destruct H as [(e & ->)|(tz & e & -> & H)]; cbn; [reflexivity|].
  rewrite H. reflexivity.
Qed.

(** A zone name the demo world rejects. *)
Lemma timezone_fault_gives_placeholder_witness :
  compute_natal_chart (demo_world None no_fault) (demo_inputs "Mars/Olympus")
  = Ok _placeholder_planets.
Proof.
  apply timezone_fault_gives_placeholder.
  left. exists KeyError. reflexivity.
Defined.

(** C10 fails as it is stated: 1985-04-28 02:30 does not exist in
    America/New_York, but [tz.localize(dt)] is called without [is_dst], and
    with the default [is_dst=False] pytz returns the standard-time reading
    of such a local time instead of raising.  In the demo world, whose
    [localize] returns for every naive datetime, the chart of this birth
    instant is computed: it is not the placeholder. *)
Lemma unlocalizable_gives_placeholder_fails :
  ~ unlocalizable_gives_placeholder (demo_world None no_fault).
Proof.
  intros H. specialize (H skipped_inputs (or_intror eq_refl)).
  vm_compute in H. discriminate.
Qed.

(** ** A run in the store *)

Section RunFacts.
Variable L : Run.Libraries.
Variable V : Type.
Variable source : Run.State L -> V.

Local Abbreviation quiet := (Run.quiet source).

Lemma same_view_refl (st : Run.Store L) : Run.same_view source st st.
Proof. split; reflexivity. Qed.

Lemma same_view_chain (s1 s1' st st' : Run.Store L) :
  Run.same_view source s1 st -> Run.same_view source s1' st' ->
  Run.same_view source st st' -> Run.same_view source s1 s1'.
Proof.
  unfold Run.same_view. intros [H1 H2] [H3 H4] [H5 H6].
  split; congruence.
Qed.

Lemma same_view_trans (s1 s2 s3 : Run.Store L) :
  Run.same_view source s1 s2 -> Run.same_view source s2 s3 ->
  Run.same_view source s1 s3.
Proof.
  unfold Run.same_view. intros [H1 H2] [H3 H4]. split; congruence.
Qed.

Lemma quiet_ret {A : Type} (a : A) : quiet (Run.ret L a).
Proof. intros st st' Hv. split; [reflexivity|apply same_view_refl]. Qed.

Lemma quiet_pure {A : Type} (r : result A) : quiet (Run.pure L r).
Proof. intros st st' Hv. split; [reflexivity|apply same_view_refl]. Qed.

Lemma quiet_global {A : Type} (name : Globals -> A) :
  quiet (Run.global L name).
Proof.
  intros st st' [Hg Hs]. unfold Run.global. cbn [fst snd]. rewrite Hg.
  split; [reflexivity|apply same_view_refl].
Qed.

Lemma quiet_call {A : Type} (f : Run.State L -> result A * Run.State L) :
  Run.reads_source source f -> quiet (Run.call L f).
Proof.
  intros [Hf Hkeep] st st' [Hg Hs]. unfold Run.call.
  specialize (Hf (Run.libs st) (Run.libs st') Hs).
  specialize (Hkeep (Run.libs st)).
  destruct (f (Run.libs st)) as [r s], (f (Run.libs st')) as [r' s'].
  cbn [fst snd] in *. split; [exact Hf|].
  split; [reflexivity|exact Hkeep].
Qed.

Lemma quiet_bind {A B : Type} (m : Run.M L A) (k : A -> Run.M L B) :
  quiet m -> (forall a, quiet (k a)) -> quiet (Run.bind L m k).
Proof.
  intros Hm Hk st st' Hv. unfold Run.bind.
  destruct (Hm st st' Hv) as [H1 H2].
  destruct (Hm st' st' (same_view_refl st')) as [_ H3].
  destruct (m st) as [r s1], (m st') as [r' s1'].
  cbn [fst snd] in H1, H2, H3. subst r'.
  destruct r as [a|e]; cbn [fst snd].
  - destruct (Hk a s1 s1' (same_view_chain _ _ _ _ H2 H3 Hv)) as [H4 H5].
    split; [exact H4|exact (same_view_trans _ _ _ H5 H2)].
  - split; [reflexivity|exact H2].
Qed.

Lemma quiet_try_except {A : Type} (body : Run.M L A) (catches : exn -> bool)
    (handler : exn -> Run.M L A) :
  quiet body -> (forall e, quiet (handler e)) ->
  quiet (Run.try_except L body catches handler).
Proof.
  intros Hm Hk st st' Hv. unfold Run.try_except.
  destruct (Hm st st' Hv) as [H1 H2].
  destruct (Hm st' st' (same_view_refl st')) as [_ H3].
  destruct (body st) as [r s1], (body st') as [r' s1'].
  cbn [fst snd] in H1, H2, H3. subst r'.
  destruct r as [a|e]; cbn [fst snd].
  - split; [reflexivity|exact H2].
  - destruct (catches e); cbn [fst snd].
    + destruct (Hk e s1 s1' (same_view_chain _ _ _ _ H2 H3 Hv)) as [H4 H5].
      split; [exact H4|exact (same_view_trans _ _ _ H5 H2)].
    + split; [reflexivity|exact H2].
Qed.

Hypothesis HL : Run.deterministic L source.

Ltac quiet_step :=
  first [ apply quiet_ret
        | apply quiet_pure
        | apply quiet_global
        | apply quiet_call; apply HL
        | apply quiet_bind; [|intros ?]
        | apply quiet_try_except; [|intros ?]
        | match goal with
          | |- Run.quiet _ (if ?b then _ else _) => destruct b
          end ].

Lemma quiet_longitude_to_sign (lon : float) :
  quiet (Run._longitude_to_sign L lon).
Proof. unfold Run._longitude_to_sign. repeat quiet_step. Qed.

Lemma quiet_scan (observer : Run.Observer L) (ts_time : Run.Time L)
    (cands : list float) (best : float * float) :
  quiet (Run.scan L observer ts_time cands best).
Proof.
  revert best. induction cands as [|c cs IH]; intros best; cbn [Run.scan].
  - apply quiet_ret.
  - apply quiet_bind; [|intros best'; apply IH].
    unfold Run.try_candidate, Run.observe_candidate. repeat quiet_step.
Qed.

Lemma quiet_best_match_ascendant (observer : Run.Observer L)
    (ts_time : Run.Time L) :
  quiet (Run._best_match_ascendant L observer ts_time).
Proof.
  unfold Run._best_match_ascendant, Run.search.
  apply quiet_try_except; [|intros ?; apply quiet_ret].
  apply quiet_bind; [apply quiet_scan|intros best].
  apply quiet_longitude_to_sign.
Qed.

Lemma quiet_lookup_bodies (ephemeris : Run.Ephemeris L)
    (table : list (string * string)) (bodies : dict (Run.Target L)) :
  quiet (Run.lookup_bodies L ephemeris table bodies).
Proof.
  revert bodies. induction table as [|[nm key] table IH]; intros bodies;
    cbn [Run.lookup_bodies].
  - apply quiet_ret.
  - apply quiet_bind; [quiet_step|intros target; apply IH].
Qed.

Lemma quiet_place_bodies (observer : Run.Observer L) (ts_time : Run.Time L)
    (items : list (string * Run.Target L)) (planets : chart) :
  quiet (Run.place_bodies L observer ts_time items planets).
Proof.
  revert planets. induction items as [|[nm target] items IH]; intros planets;
    cbn [Run.place_bodies].
  - apply quiet_ret.
  - apply quiet_bind; [quiet_step|intros lon].
    apply quiet_bind; [apply quiet_longitude_to_sign|intros sd; apply IH].
Qed.

Lemma quiet_compute_natal_chart (inputs : NatalInputs) :
  quiet (Run.compute_natal_chart L inputs).
Proof.
  unfold Run.compute_natal_chart, Run._safe_load_ephemeris,
    Run._placeholder_planets.
  apply quiet_bind; [repeat quiet_step|intros [eph|]; [|apply quiet_ret]].
  apply quiet_try_except; [|intros ?; apply quiet_ret].
  unfold Run.chart_body.
  do 8 (apply quiet_bind; [quiet_step|intros ?]).
  apply quiet_bind; [apply quiet_lookup_bodies|intros bodies].
  apply quiet_bind; [apply quiet_place_bodies|intros planets].
  apply quiet_bind; [apply quiet_best_match_ascendant|intros asc].
  apply quiet_ret.
Qed.
End RunFacts.

(** ** The two embeddings agree

    On the libraries of a world, and with the module's tables as the top
    level binds them, a run in the store returns what the computation over
    the world returns. *)

Section Refinement.
Variable w : World.
Variable S : Type.
Variable tick : S -> S.

Local Abbreviation LW := (libraries_of w S tick).

Lemma refines_ret {A : Type} (a : A) : refines (Run.ret LW a) (Ok a).
Proof. intros st Hg. split; [reflexivity|exact Hg]. Qed.

Lemma refines_pure {A : Type} (r : result A) : refines (Run.pure LW r) r.
Proof. intros st Hg. split; [reflexivity|exact Hg]. Qed.

Lemma refines_call {A : Type} (r : result A) :
  refines (Run.call LW (fun s => (r, tick s))) r.
Proof. intros st Hg. split; [reflexivity|exact Hg]. Qed.

Lemma refines_bind {A B : Type} (m : Run.M LW A) (k : A -> Run.M LW B)
    (r : result A) (k' : A -> result B) :
  refines m r -> (forall a, refines (k a) (k' a)) ->
  refines (Run.bind LW m k) (bind r k').
Proof.
  intros Hm Hk st Hg. unfold Run.bind.
  destruct (Hm st Hg) as [H1 H2].
  destruct (m st) as [r0 s1]. cbn [fst snd] in H1, H2. subst r0.
  destruct r as [a|e]; cbn [bind fst snd].
  - apply Hk. exact H2.
  - split; [reflexivity|exact H2].
Qed.

Lemma refines_global_bind {A B : Type} (name : Globals -> A)
    (k : A -> Run.M LW B) (r : result B) :
  refines (k (name module_globals)) r ->
  refines (Run.bind LW (Run.global LW name) k) r.
Proof.
  intros Hk st Hg. unfold Run.bind, Run.global. rewrite Hg.
  apply Hk. exact Hg.
Qed.

Lemma refines_try_except {A : Type} (body : Run.M LW A)
    (catches : exn -> bool) (handler : exn -> Run.M LW A)
    (r : result A) (handler' : exn -> result A) :
  refines body r -> (forall e, refines (handler e) (handler' e)) ->
  refines (Run.try_except LW body catches handler)
    (try_except r catches handler').
Proof.
  intros Hm Hk st Hg. unfold Run.try_except.
  destruct (Hm st Hg) as [H1 H2].
  destruct (body st) as [r0 s1]. cbn [fst snd] in H1, H2. subst r0.
  destruct r as [a|e]; cbn [try_except fst snd].
  - split; [reflexivity|exact H2].
  - destruct (catches e).
    + apply Hk. exact H2.
    + split; [reflexivity|exact H2].
Qed.

Lemma refines_longitude_to_sign (lon : float) :
  refines (Run._longitude_to_sign LW lon) (_longitude_to_sign lon).
Proof.
  unfold Run._longitude_to_sign, _longitude_to_sign.
  do 4 (apply refines_bind; [apply refines_pure|intros ?]).
  apply refines_global_bind.
  apply refines_bind; [apply refines_pure|intros ?]. apply refines_ret.
Qed.

Lemma refines_scan (observer : Observer w) (ts_time : Time w)
    (cands : list float) (best : float * float) :
  refines (Run.scan LW observer ts_time cands best)
    (scan w observer ts_time cands best).
Proof.
  revert best. induction cands as [|c cs IH]; intros best;
    cbn [Run.scan scan].
  - apply refines_ret.
  - apply refines_bind; [|intros best'; apply IH].
    unfold Run.try_candidate, try_candidate.
    apply refines_try_except; [|intros ?; apply refines_ret].
    apply refines_bind.
    + unfold Run.observe_candidate, observe_candidate.
      apply refines_bind; [apply refines_call|intros star].
      apply refines_call.
    + intros obs. cbn zeta.
      destruct (ltb (score (fst obs) (snd obs)) (fst best));
        apply refines_ret.
Qed.

Lemma refines_best_match_ascendant (observer : Observer w)
    (ts_time : Time w) :
  refines (Run._best_match_ascendant LW observer ts_time)
    (_best_match_ascendant w observer ts_time).
Proof.
  unfold Run._best_match_ascendant, _best_match_ascendant, Run.search, search.
  apply refines_try_except; [|intros ?; apply refines_ret].
  apply refines_bind; [apply refines_scan|intros best].
  apply refines_longitude_to_sign.
Qed.

Lemma refines_lookup_bodies (ephemeris : Ephemeris w)
    (table : list (string * string)) (bodies : dict (Target w)) :
  refines (Run.lookup_bodies LW ephemeris table bodies)
    (lookup_bodies w ephemeris table bodies).
Proof.
  revert bodies. induction table as [|[nm key] table IH]; intros bodies;
    cbn [Run.lookup_bodies lookup_bodies].
  - apply refines_ret.
  - apply refines_bind; [apply refines_call|intros target; apply IH].
Qed.

Lemma refines_place_bodies (observer : Observer w) (ts_time : Time w)
    (items : list (string * Target w)) (planets : chart) :
  refines (Run.place_bodies LW observer ts_time items planets)
    (place_bodies w observer ts_time items planets).
Proof.
  revert planets. induction items as [|[nm target] items IH]; intros planets;
    cbn [Run.place_bodies place_bodies].
  - apply refines_ret.
  - apply refines_bind; [apply refines_call|intros lon].
    apply refines_bind; [apply refines_longitude_to_sign|intros sd; apply IH].
Qed.

(** The run in the store returns the record of the computation over the
    world. *)
Lemma compute_natal_chart_refines (inputs : NatalInputs) :
  refines (Run.compute_natal_chart LW inputs) (compute_natal_chart w inputs).
Proof.
  unfold Run.compute_natal_chart, compute_natal_chart,
    Run._safe_load_ephemeris, _safe_load_ephemeris, Run._placeholder_planets.
  apply refines_bind.
  - apply refines_try_except; [|intros ?; apply refines_ret].
    apply refines_bind; [apply refines_call|intros eph; apply refines_ret].
  - intros [eph|]; [|apply refines_ret].
    apply refines_try_except; [|intros ?; apply refines_ret].
    unfold Run.chart_body, chart_body.
    do 8 (apply refines_bind; [apply refines_call|intros ?]).
    apply refines_bind; [apply refines_lookup_bodies|intros bodies].
    apply refines_bind; [apply refines_place_bodies|intros planets].
    apply refines_bind; [apply refines_best_match_ascendant|intros asc].
    apply refines_ret.
Qed.
End Refinement.

(** In the demo libraries the run computes the demo chart, and the clock
    has advanced by the number of external calls: nine to build the
    observer, ten lookups, ten observations of bodies and two calls for
    each of the 720 candidates.  Without the ephemeris file the run makes
    one call and returns the placeholder. *)
Lemma demo_run :
  let with_file :=
    Run.compute_natal_chart demo_libraries (demo_inputs "America/New_York")
      (demo_store 0 true) in
  let without_file :=
    Run.compute_natal_chart demo_libraries (demo_inputs "America/New_York")
      (demo_store 0 false) in
  fst with_file = Ok demo_chart /\
  Run.libs (snd with_file) = (1469%nat, true) /\
  fst without_file = Ok _placeholder_planets /\
  Run.libs (snd without_file) = (1%nat, false).
Proof. vm_compute. repeat split. Qed.

(** The libraries of a world draw nothing from their state. *)
Lemma libraries_of_deterministic (w : World) (S : Type) (tick : S -> S) :
  Run.deterministic (libraries_of w S tick) (fun _ => tt).
Proof. constructor; intros; split; intros; reflexivity. Qed.

(** In the demo libraries the answer of [load] is drawn from the presence
    of the file, the other answers from nothing. *)
Lemma demo_libraries_deterministic :
  Run.deterministic demo_libraries demo_source.
Proof.
  constructor; intros; (split; [intros s s' Hs|intros s]);
    try reflexivity.
  unfold demo_source in Hs. cbn [Run.load demo_libraries fst]. rewrite Hs.
  reflexivity.
Qed.

(** C9. In a Python process the chart computation runs in a store: the
    module's tables and the state of the libraries (caches, downloaded
    files, the clock).  When the answers of the libraries are drawn from a
    source (the data behind the ephemeris and the zones) that the calls do
    not change, two runs that start with the same tables and the same
    source, whatever the rest of the state of the libraries, on inputs with
    the same birth instant, coordinates and zone return the same record or
    the same exception; a run leaves the tables as it found them; and a
    second run in the store the first one left returns what the first
    returned. *)
Theorem compute_natal_chart_deterministic (L : Run.Libraries) (V : Type)
    (source : Run.State L -> V) (i1 i2 : NatalInputs)
    (st1 st2 : Run.Store L) :
  Run.deterministic L source ->
  Run.globals st1 = Run.globals st2 ->
  source (Run.libs st1) = source (Run.libs st2) ->
  birth_datetime i1 = birth_datetime i2 ->
  latitude i1 = latitude i2 ->
  longitude i1 = longitude i2 ->
  timezone i1 = timezone i2 ->
  fst (Run.compute_natal_chart L i1 st1)
    = fst (Run.compute_natal_chart L i2 st2) /\
  Run.globals (snd (Run.compute_natal_chart L i1 st1)) = Run.globals st1 /\
  fst (Run.compute_natal_chart L i2 (snd (Run.compute_natal_chart L i1 st1)))
    = fst (Run.compute_natal_chart L i1 st1).
Proof.
  intros HL Hg Hsrc Hd Hlat Hlon Hz.
  assert (Heq : Run.compute_natal_chart L i2 = Run.compute_natal_chart L i1).
  { unfold Run.compute_natal_chart, Run.chart_body.
    rewrite Hd, Hlat, Hlon, Hz. reflexivity. }
  rewrite Heq.
  pose proof (quiet_compute_natal_chart L V source HL i1) as Hq.
  destruct (Hq st1 st2 (conj Hg Hsrc)) as [H1 H2].
  split; [exact H1|split; [exact (proj1 H2)|]].
  apply Hq. exact H2.
Qed.

(** The demo libraries with the ephemeris file there, the clock at 0 and at
    1985, on two inputs that differ in the name. *)
Lemma compute_natal_chart_deterministic_witness :
  fst (Run.compute_natal_chart demo_libraries
         (demo_inputs "America/New_York") (demo_store 0 true))
    = fst (Run.compute_natal_chart demo_libraries demo_inputs_grace
             (demo_store 1985 true)) /\
  Run.globals (snd (Run.compute_natal_chart demo_libraries
                      (demo_inputs "America/New_York") (demo_store 0 true)))
    = Run.globals (demo_store 0 true) /\
  fst (Run.compute_natal_chart demo_libraries demo_inputs_grace
         (snd (Run.compute_natal_chart demo_libraries
                 (demo_inputs "America/New_York") (demo_store 0 true))))
    = fst (Run.compute_natal_chart demo_libraries
             (demo_inputs "America/New_York") (demo_store 0 true)).
Proof.
  apply (compute_natal_chart_deterministic demo_libraries bool demo_source);
    try reflexivity.
  exact demo_libraries_deterministic.
Defined.

Lemma dict_get_set {V : Type} (d : dict V) (k k' : string) (v : V) :
  dict_get (dict_set d k v) k' =
  if String.eqb k k' then Some v else dict_get d k'.
Proof.
  induction d as [|[k0 v0] d IH]; cbn [dict_set dict_get].
  - destruct (String.eqb k k'); reflexivity.
  - destruct (String.eqb k0 k) eqn:E0; cbn [dict_get].
    + apply String.eqb_eq in E0. subst k0.
      destruct (String.eqb k k'); reflexivity.
    + rewrite IH. destruct (String.eqb k0 k') eqn:E1; [|reflexivity].
      apply String.eqb_eq in E1. subst k0. rewrite String.eqb_sym, E0.
      reflexivity.
Qed.

Lemma dict_get_In {V : Type} (d : dict V) (k : string) (v : V) :
  dict_get d k = Some v -> In (k, v) d.
Proof.
  induction d as [|[k0 v0] d IH]; cbn [dict_get]; [discriminate|].
  destruct (String.eqb k0 k) eqn:E.
  - apply String.eqb_eq in E. intros [= ->]. left. congruence.
  - intros H. right. auto.
Qed.

Section BodyFacts.
Variable w : World.

Lemma lookup_bodies_ext (eph1 eph2 : Ephemeris w)
    (table : list (string * string)) (acc : dict (Target w)) :
  (forall key, In key (values table) ->
     ephemeris_getitem w eph1 key = ephemeris_getitem w eph2 key) ->
  lookup_bodies w eph1 table acc = lookup_bodies w eph2 table acc.
Proof.
  revert acc. induction table as [|[nm key] table IH]; intros acc H;
    [reflexivity|].
  cbn [lookup_bodies]. rewrite (H key) by (left; reflexivity).
  destruct (ephemeris_getitem w eph2 key) as [t|e]; cbn [bind]; [|reflexivity].
  apply IH. intros k Hk. apply H. right. exact Hk.
Qed.

Lemma lookup_bodies_other (ephemeris : Ephemeris w)
    (table : list (string * string)) (acc bodies : dict (Target w))
    (nm : string) :
  lookup_bodies w ephemeris table acc = Ok bodies ->
  ~ In nm (keys table) ->
  dict_get bodies nm = dict_get acc nm.
Proof.
  revert acc. induction table as [|[nm0 key] table IH]; intros acc.
  - cbn. intros [= <-] _. reflexivity.
  - cbn [lookup_bodies keys map fst].
    destruct (ephemeris_getitem w ephemeris key) as [t|]; cbn [bind]; [|discriminate].
    intros H Hnot. rewrite (IH _ H) by (intros Hin; apply Hnot; right; exact Hin).
    rewrite dict_get_set.
    destruct (String.eqb nm0 nm) eqn:E; [|reflexivity].
    apply String.eqb_eq in E. exfalso. apply Hnot. left. exact E.
Qed.

(** Each name of the table is bound to the target found under its key. *)
Lemma lookup_bodies_get (ephemeris : Ephemeris w)
    (table : list (string * string)) (acc bodies : dict (Target w))
    (nm key : string) :
  lookup_bodies w ephemeris table acc = Ok bodies ->
  NoDup (keys table) -> In (nm, key) table ->
  exists target, ephemeris_getitem w ephemeris key = Ok target /\
                 dict_get bodies nm = Some target.
Proof.
  revert acc. induction table as [|[nm0 key0] table IH]; intros acc H Hnd Hin;
    [destruct Hin|].
  cbn [lookup_bodies] in H. cbn [keys map fst] in Hnd.
  inversion Hnd as [|x l Hx Hl]; subst.
  destruct (ephemeris_getitem w ephemeris key0) as [t|] eqn:Hk; cbn [bind] in H;
    [|discriminate].
  destruct Hin as [[= -> ->]|Hin].
  - exists t. split; [exact Hk|].
    rewrite (lookup_bodies_other _ _ _ _ nm H Hx), dict_get_set, String.eqb_refl.
    reflexivity.
  - eapply IH; eauto.
Qed.

Lemma place_bodies_other (observer : Observer w) (ts_time : Time w)
    (items : list (string * Target w)) (acc planets : chart) (nm : string) :
  place_bodies w observer ts_time items acc = Ok planets ->
  ~ In nm (keys items) ->
  dict_get planets nm = dict_get acc nm.
Proof.
  revert acc. induction items as [|[nm0 t] items IH]; intros acc.
  - cbn. intros [= <-] _. reflexivity.
  - cbn [place_bodies keys map fst].
    destruct (ecliptic_lon_degrees w observer ts_time t) as [lon|]; cbn [bind]; [|discriminate].
    destruct (_longitude_to_sign lon) as [sd|]; cbn [bind]; [|discriminate].
    intros H Hnot. rewrite (IH _ H) by (intros Hin; apply Hnot; right; exact Hin).
    rewrite dict_get_set.
    destruct (String.eqb nm0 nm) eqn:E; [|reflexivity].
    apply String.eqb_eq in E. exfalso. apply Hnot. left. exact E.
Qed.

(** Each body is placed at the projection of the longitude its target is
    observed at. *)
Lemma place_bodies_get (observer : Observer w) (ts_time : Time w)
    (items : list (string * Target w)) (acc planets : chart)
    (nm : string) (target : Target w) :
  place_bodies w observer ts_time items acc = Ok planets ->
  NoDup (keys items) -> In (nm, target) items ->
  exists lon p,
    ecliptic_lon_degrees w observer ts_time target = Ok lon /\
    _longitude_to_sign lon = Ok p /\
    dict_get planets nm = Some (placement (fst p) (snd p)).
Proof.
  revert acc. induction items as [|[nm0 t0] items IH]; intros acc H Hnd Hin;
    [destruct Hin|].
  cbn [place_bodies] in H. cbn [keys map fst] in Hnd.
  inversion Hnd as [|x l Hx Hl]; subst.
  destruct (ecliptic_lon_degrees w observer ts_time t0) as [lon|] eqn:Hlon;
    cbn [bind] in H; [|discriminate].
  destruct (_longitude_to_sign lon) as [sd|] eqn:Hsd; cbn [bind] in H;
    [|discriminate].
  destruct Hin as [[= -> ->]|Hin].
  - exists lon, sd. repeat split; auto.
    rewrite (place_bodies_other _ _ _ _ _ nm H Hx), dict_get_set, String.eqb_refl.
    reflexivity.
  - eapply IH; eauto.
Qed.

Lemma body_keys_nodup : NoDup (keys BODY_KEYS).
Proof.
  repeat constructor; cbn; intuition discriminate.
Qed.

Lemma body_not_ascendant (nm key : string) :
  In (nm, key) BODY_KEYS -> String.eqb "Ascendant" nm = false.
Proof.
  intros H. cbn in H.
  repeat (destruct H as [H|H]; [injection H as <- <-; reflexivity|]).
  destruct H.
Qed.

(** In a chart that the [try] block returns, the entry of each body of the
    table is the projection of the longitude observed for the target that
    the ephemeris holds under the body's key. *)
Lemma chart_body_targets (ephemeris : Ephemeris w) (inputs : NatalInputs)
    (c : chart) (nm key : string) :
  chart_body w ephemeris inputs = Ok c ->
  In (nm, key) BODY_KEYS ->
  exists observer ts_time target lon p,
    ephemeris_getitem w ephemeris key = Ok target /\
    ecliptic_lon_degrees w observer ts_time target = Ok lon /\
    _longitude_to_sign lon = Ok p /\
    dict_get c nm = Some (placement (fst p) (snd p)).
Proof.
  unfold chart_body. intros H Hin.
  destruct (load_timescale w) as [ts|]; cbn [bind] in H; [|discriminate].
  destruct (pytz_timezone w _) as [tz|]; cbn [bind] in H; [|discriminate].
  destruct (localize w tz _) as [ldt|]; cbn [bind] in H; [|discriminate].
  destruct (astimezone_utc w ldt) as [udt|]; cbn [bind] in H; [|discriminate].
  destruct (from_datetime w ts udt) as [t|]; cbn [bind] in H; [|discriminate].
  destruct (ephemeris_getitem w ephemeris "earth") as [earth|]; cbn [bind] in H; [|discriminate].
  destruct (wgs84_latlon w _ _) as [topos|]; cbn [bind] in H; [|discriminate].
  destruct (vector_sum w earth topos) as [obs|]; cbn [bind] in H; [|discriminate].
  destruct (lookup_bodies w ephemeris BODY_KEYS []) as [bodies|] eqn:Hb; cbn [bind] in H; [|discriminate].
  destruct (place_bodies w obs t bodies []) as [planets|] eqn:Hp; cbn [bind] in H; [|discriminate].
  destruct (_best_match_ascendant w obs t) as [asc|]; cbn [bind] in H; [|discriminate].
  injection H as <-.
  destruct (lookup_bodies_get _ _ _ _ nm key Hb body_keys_nodup Hin)
    as (target & Hk & Hget).
  assert (Hnd : NoDup (keys bodies)).
  { rewrite (lookup_bodies_keys w _ _ _ _ Hb). exact body_keys_nodup. }
  destruct (place_bodies_get obs t bodies [] planets nm target Hp Hnd
              (dict_get_In _ _ _ Hget)) as (lon & p & Hlon & Hsd & Hpl).
  exists obs, t, target, lon, p. repeat split; auto.
  rewrite dict_get_set, (body_not_ascendant nm key Hin). exact Hpl.
Qed.
End BodyFacts.

(** C7. The [bodies] literal looks Jupiter, Saturn, Uranus, Neptune and
    Pluto up under their barycenter keys and the Sun, the Moon, Mercury,
    Venus and Mars under their own names.  In a computed chart the entry of
    each body comes from the target held under its key, and the computation
    reads the ephemeris under these ten keys and "earth" only. *)
Theorem outer_planets_by_barycenter :
  (dict_get BODY_KEYS "Jupiter" = Some "jupiter barycenter" /\
   dict_get BODY_KEYS "Saturn" = Some "saturn barycenter" /\
   dict_get BODY_KEYS "Uranus" = Some "uranus barycenter" /\
   dict_get BODY_KEYS "Neptune" = Some "neptune barycenter" /\
   dict_get BODY_KEYS "Pluto" = Some "pluto barycenter") /\
  (dict_get BODY_KEYS "Sun" = Some "sun" /\
   dict_get BODY_KEYS "Moon" = Some "moon" /\
   dict_get BODY_KEYS "Mercury" = Some "mercury" /\
   dict_get BODY_KEYS "Venus" = Some "venus" /\
   dict_get BODY_KEYS "Mars" = Some "mars") /\
  keys BODY_KEYS = PLANET_NAMES /\
  (forall (w : World) (eph : Ephemeris w) (inputs : NatalInputs) (c : chart)
          (body key : string),
     chart_body w eph inputs = Ok c ->
     dict_get BODY_KEYS body = Some key ->
     exists observer ts_time target lon p,
       ephemeris_getitem w eph key = Ok target /\
       ecliptic_lon_degrees w observer ts_time target = Ok lon /\
       _longitude_to_sign lon = Ok p /\
       dict_get c body = Some (placement (fst p) (snd p))) /\
  (forall (w : World) (eph1 eph2 : Ephemeris w) (inputs : NatalInputs),
     (forall key, In key ("earth" :: values BODY_KEYS) ->
        ephemeris_getitem w eph1 key = ephemeris_getitem w eph2 key) ->
     chart_body w eph1 inputs = chart_body w eph2 inputs).
Proof.
  split; [repeat split|split; [repeat split|split; [reflexivity|split]]].
  - intros w eph inputs c body key Hc Hk.
    apply (chart_body_targets w eph inputs c body key Hc).
    apply dict_get_In. exact Hk.
  - intros w eph1 eph2 inputs H. unfold chart_body.
    rewrite (H "earth") by (left; reflexivity).
    rewrite (lookup_bodies_ext w eph1 eph2 BODY_KEYS [])
      by (intros key Hk; apply H; right; exact Hk).
    reflexivity.
Qed.

(** ** The zodiac projection on particular longitudes *)

(** The longitudes named in the description of the projection: -10 and 350
    give Pisces at 20.0, and [30 * k] gives the [k]-th sign at 0.0. *)
Lemma longitude_to_sign_examples :
  _longitude_to_sign (of_Z (-10)) = Ok ("Pisces", of_Z 20) /\
  _longitude_to_sign (of_Z 350) = Ok ("Pisces", of_Z 20) /\
  map (fun k => _longitude_to_sign (of_Z (30 * k))) (range 0 12)
  = map (fun s => Ok (s, zero)) SIGN_ORDER.
Proof. vm_compute. repeat split. Qed.

(** Over exact rationals the description is total: the sign is one of the
    twelve and the degree lies in [[0, 30)]. *)
Lemma spec_sign_of_total (L : Q) :
  In (fst (spec_sign_of L)) SIGN_ORDER /\
  (0 <= snd (spec_sign_of L))%Q /\ (snd (spec_sign_of L) < 30)%Q.
Proof.
  unfold spec_sign_of. cbn [fst snd].
  set (n := (L - 360 * inject_Z (Qfloor (L / 360)))%Q).
  assert (Hn : (0 <= n)%Q /\ (n < 360)%Q).
  { pose proof (Qfloor_le (L / 360)) as H1.
    pose proof (Qlt_floor (L / 360)) as H2.
    rewrite inject_Z_plus in H2. change (inject_Z 1) with 1%Q in H2.
    assert (HL : (L == 360 * (L / 360))%Q) by field.
    unfold n. split; lra. }
  destruct Hn as [Hn0 Hn1].
  pose proof (Qfloor_le (n / 30)) as H1.
  pose proof (Qlt_floor (n / 30)) as H2.
  rewrite inject_Z_plus in H2. change (inject_Z 1) with 1%Q in H2.
  assert (Hn30 : (n == 30 * (n / 30))%Q) by field.
  set (i := Qfloor (n / 30)) in *.
  assert (Hi : 0 <= i < 12).
  { split.
    - apply Z.lt_succ_r. rewrite Zlt_Qlt. rewrite <- Z.add_1_r, inject_Z_plus.
      change (inject_Z 1) with 1%Q. change (inject_Z 0) with 0%Q. lra.
    - rewrite Zlt_Qlt. change (inject_Z 12) with 12%Q. lra. }
  split; [|split; lra].
  apply nth_In. change (List.length SIGN_ORDER) with 12%nat. lia.
Qed.

Lemma refines_on_grid : forallb refines_at (seq 0 720) = true.
Proof. vm_compute. reflexivity. Qed.

(** C2, at the longitude [-1e-20].  The remainder [-1e-20 % 360] is rounded
    to 360.0, the sign index is 12, and the lookup in the list of twelve
    signs raises [IndexError]; the description puts this longitude in
    Pisces. *)
Theorem longitude_to_sign_tiny_negative :
  py_mod tiny_negative (of_Z 360) = Ok (of_Z 360) /\
  (q <- py_floordiv (of_Z 360) (of_Z 30) ;; py_int q) = Ok 12 /\
  _longitude_to_sign tiny_negative = Raise IndexError /\
  exists L, F2Q tiny_negative = Some L /\ fst (spec_sign_of L) = "Pisces".
Proof.
  split; [|split; [|split]]; try (vm_compute; reflexivity).
  eexists. split; [reflexivity|]. vm_compute. reflexivity.
Qed.

(** ** The row synthesizer on the placeholder *)

(** The sibling of [_dominant_element] leaves an entry whose sign is not a
    key of its table out of the totals. *)
Lemma modality_skips_unknown (e : entry) (vals : list entry) (totals : dict Z) :
  dict_get SIGN_MODALITIES (sign_or e "") = None ->
  modality_totals (e :: vals) totals = modality_totals vals totals.
Proof. intros H. cbn [modality_totals]. rewrite H. reflexivity. Qed.

(** C8, on the placeholder record.  [_dominant_element] counts every
    "Unknown" entry as an Earth sign: the row's element is "Earth", as for a
    chart with every body in Taurus, while a chart with no entry gives
    "Fire".  The date range and the chart ruler are empty. *)
Theorem unknown_counted_as_earth (inputs : NatalInputs) :
  get_default SIGN_ELEMENTS "Unknown" "Earth"
    = get_default SIGN_ELEMENTS "Taurus" "Earth" /\
  element_totals _placeholder_planets
    [("Fire", 0); ("Earth", 0); ("Air", 0); ("Water", 0)]
    = Ok [("Fire", 0); ("Earth", 20); ("Air", 0); ("Water", 0)] /\
  _dominant_element _placeholder_planets = Ok "Earth" /\
  _dominant_element (all_in "Taurus") = Ok "Earth" /\
  _dominant_element [] = Ok "Fire" /\
  (row <- build_csv_row _placeholder_planets inputs ;;
   Ok (map (dict_get row) ["Element"; "DateRange"; "ChartRuler"]))
  = Ok [Some "Earth"; Some ""; Some ""].
Proof. vm_compute. repeat split. Qed.

(** * Further properties *)

(** ** The first maximal key *)

Lemma max_key_from_split (d : dict Z) (b : string) (bv : Z) (k : string) :
  max_key_from d b bv = k ->
  exists v pre post,
    (b, bv) :: d = pre ++ (k, v) :: post /\
    (forall x, In x pre -> snd x < v) /\
    (forall x, In x post -> snd x <= v).
Proof.
  revert b bv. induction d as [|[k1 v1] d IH]; intros b bv H.
  - cbn in H. subst k. exists bv, [], []. repeat split; intros x [].
  - cbn [max_key_from] in H. destruct (bv <? v1) eqn:Hlt.
    + apply Z.ltb_lt in Hlt.
      destruct (IH k1 v1 H) as (v & pre & post & Heq & Hpre & Hpost).
      assert (Hv1 : v1 <= v).
      { assert (Hin : In (k1, v1) (pre ++ (k, v) :: post))
          by (rewrite <- Heq; left; reflexivity).
        apply in_app_or in Hin as [Hin|[Hin|Hin]].
        - apply Hpre in Hin. cbn in Hin. lia.
        - injection Hin as _ ->. lia.
        - apply Hpost in Hin. cbn in Hin. lia. }
      exists v, ((b, bv) :: pre), post. repeat split.
      * cbn. rewrite Heq. reflexivity.
      * intros x [<-|Hx]; [cbn; lia|auto].
      * exact Hpost.
    + apply Z.ltb_ge in Hlt.
      destruct (IH b bv H) as (v & pre & post & Heq & Hpre & Hpost).
      destruct pre as [|x0 pre].
      * cbn in Heq. injection Heq as <- <- <-.
        exists bv, [], ((k1, v1) :: d). repeat split.
        -- intros x [].
        -- intros x [<-|Hx]; [cbn; lia|auto].
      * cbn in Heq. injection Heq as <- Heq.
        assert (Hb : bv < v) by (apply (Hpre (b, bv)); left; reflexivity).
        exists v, ((b, bv) :: (k1, v1) :: pre), post. repeat split.
        -- cbn. rewrite Heq. reflexivity.
        -- intros x [<-|[<-|Hx]]; cbn; try lia. apply Hpre. right. exact Hx.
        -- exact Hpost.
Qed.

(** [max] over a dictionary that holds [f k] under each key [k] of [l]. *)
Lemma max_key_first_maximal (f : string -> Z) (l : list string) (k : string) :
  max_key (map (fun k => (k, f k)) l) = Ok k -> first_maximal f l k.
Proof.
  destruct l as [|k0 l]; [discriminate|].
  cbn [map max_key]. intros [= H].
  destruct (max_key_from_split _ _ _ _ H) as (v & pre & post & Heq & Hpre & Hpost).
  change ((k0, f k0) :: map (fun k => (k, f k)) l)
    with (map (fun k => (k, f k)) (k0 :: l)) in Heq.
  apply map_eq_app in Heq as (l1 & l2 & Hl & H1 & H2).
  apply map_eq_cons in H2 as (k' & l3 & -> & [= <- <-] & H3).
  subst pre post. exists l1, l3. repeat split; [exact Hl| |].
  - intros k1 Hk1. apply (Hpre (k1, f k1)).
    apply in_map_iff. exists k1. auto.
  - intros k1 Hk1. apply (Hpost (k1, f k1)).
    apply in_map_iff. exists k1. auto.
Qed.

Lemma max_key_nonempty_map (f : string -> Z) (k0 : string) (l : list string) :
  exists k, max_key (map (fun k => (k, f k)) (k0 :: l)) = Ok k.
Proof. cbn. eauto. Qed.

(** ** The dominant element and the dominant modality *)

Lemma element_of_cases (data : entry) :
  element_of data = "Fire" \/ element_of data = "Earth" \/
  element_of data = "Air" \/ element_of data = "Water".
Proof.
  unfold element_of, get_default.
  destruct (dict_get SIGN_ELEMENTS (sign_or data "")) as [el|] eqn:H; [|auto].
  apply dict_get_In in H. cbn in H.
  repeat (destruct H as [H|H]; [injection H as _ <-; auto|]).
  destruct H.
Qed.

Lemma modality_cases (s m : string) :
  dict_get SIGN_MODALITIES s = Some m ->
  m = "Cardinal" \/ m = "Fixed" \/ m = "Mutable".
Proof.
  intros H. apply dict_get_In in H. cbn in H.
  repeat (destruct H as [H|H]; [injection H as _ <-; auto|]).
  destruct H.
Qed.

(** The loop of [_dominant_element] adds to each total the weights of the
    entries counted under its element. *)
Lemma element_totals_sums (planets : chart) (a b c d : Z) :
  element_totals planets [("Fire", a); ("Earth", b); ("Air", c); ("Water", d)]
  = Ok [ ("Fire", a + element_weight "Fire" planets);
         ("Earth", b + element_weight "Earth" planets);
         ("Air", c + element_weight "Air" planets);
         ("Water", d + element_weight "Water" planets) ].
Proof.
  revert a b c d. induction planets as [|[planet data] planets IH]; intros a b c d.
  - cbn. rewrite !Z.add_0_r. reflexivity.
  - cbn [element_totals element_weight].
    change (get_default SIGN_ELEMENTS (sign_or data "") "Earth")
      with (element_of data).
    change (get_default ELEMENT_WEIGHTS planet 1) with (weight_of planet).
    destruct (element_of_cases data) as [E|[E|[E|E]]]; rewrite E;
      cbn -[weight_of Z.add element_weight];
      rewrite IH, ?Z.add_0_l, ?Z.add_assoc; reflexivity.
Qed.

(** The loop of [_dominant_modality] counts the entries of each modality. *)
Lemma modality_totals_counts (vals : list entry) (a b c : Z) :
  modality_totals vals [("Cardinal", a); ("Fixed", b); ("Mutable", c)]
  = Ok [ ("Cardinal", a + modality_count "Cardinal" vals);
         ("Fixed", b + modality_count "Fixed" vals);
         ("Mutable", c + modality_count "Mutable" vals) ].
Proof.
  revert a b c. induction vals as [|data vals IH]; intros a b c.
  - cbn. rewrite !Z.add_0_r. reflexivity.
  - cbn [modality_totals modality_count].
    destruct (dict_get SIGN_MODALITIES (sign_or data "")) as [m|] eqn:Hm.
    + destruct (modality_cases _ _ Hm) as [-> | [-> | ->]];
        cbn -[Z.add modality_count];
        rewrite IH, ?Z.add_0_l, ?Z.add_assoc; reflexivity.
    + rewrite IH. reflexivity.
Qed.

Lemma dominant_element_max_key (planets : chart) :
  _dominant_element planets
  = max_key (map (fun el => (el, element_weight el planets)) ELEMENTS).
Proof.
  unfold _dominant_element. rewrite element_totals_sums. reflexivity.
Qed.

Lemma dominant_modality_max_key (planets : chart) :
  _dominant_modality planets
  = max_key (map (fun mo => (mo, modality_count mo (values planets)))
               MODALITIES).
Proof.
  unfold _dominant_modality. rewrite modality_totals_counts. reflexivity.
Qed.

(** X1. [_dominant_element] never raises; it returns the first of Fire,
    Earth, Air, Water whose weighted total is maximal, where the total of an
    element is the sum of the weights of the entries counted under it. *)
Theorem dominant_element_first_maximal (planets : chart) :
  exists el,
    _dominant_element planets = Ok el /\
    first_maximal (fun el => element_weight el planets) ELEMENTS el.
Proof.
  rewrite dominant_element_max_key.
  destruct (max_key_nonempty_map (fun el => element_weight el planets)
              "Fire" ["Earth"; "Air"; "Water"]) as (el & H).
  exists el. split; [exact H|]. apply max_key_first_maximal. exact H.
Qed.

(** X2. [_dominant_modality] never raises; it returns the first of
    Cardinal, Fixed, Mutable that the most entries have. *)
Theorem dominant_modality_first_maximal (planets : chart) :
  exists mo,
    _dominant_modality planets = Ok mo /\
    first_maximal (fun mo => modality_count mo (values planets)) MODALITIES mo.
Proof.
  rewrite dominant_modality_max_key.
  destruct (max_key_nonempty_map
              (fun mo => modality_count mo (values planets))
              "Cardinal" ["Fixed"; "Mutable"]) as (mo & H).
  exists mo. split; [exact H|]. apply max_key_first_maximal. exact H.
Qed.

Lemma unknown_sign_no_modality (s : string) :
  existsb (String.eqb s) SIGN_ORDER = false ->
  dict_get SIGN_MODALITIES s = None.
Proof.
  intros Hs. destruct (dict_get SIGN_MODALITIES s) as [m|] eqn:H; [|reflexivity].
  apply dict_get_In in H. cbn in H.
  repeat (destruct H as [H|H]; [injection H as <- _; discriminate|]).
  destruct H.
Qed.

Lemma modality_count_filter (mo : string) (vals : list entry) :
  modality_count mo (filter known_sign vals) = modality_count mo vals.
Proof.
  induction vals as [|data vals IH]; [reflexivity|].
  cbn [filter]. destruct (known_sign data) eqn:Hk; cbn [modality_count].
  - rewrite IH. reflexivity.
  - rewrite IH. unfold known_sign in Hk.
    rewrite (unknown_sign_no_modality _ Hk). reflexivity.
Qed.

Lemma values_filter {V : Type} (f : V -> bool) (d : dict V) :
  values (filter (fun kv => f (snd kv)) d) = filter f (values d).
Proof.
  unfold values. induction d as [|[k v] d IH]; [reflexivity|].
  cbn. destruct (f v); cbn; rewrite IH; reflexivity.
Qed.

Lemma filter_none {A : Type} (f : A -> bool) (l : list A) :
  forallb (fun x => negb (f x)) l = true -> filter f l = [].
Proof.
  induction l as [|x l IH]; [reflexivity|].
  cbn [forallb filter]. intros H. apply andb_prop in H as [H1 H2].
  apply negb_true_iff in H1. rewrite H1. auto.
Qed.

(** X3. The entries whose sign is not one of the twelve (the "Unknown"
    sentinel, a missing sign) do not count for the dominant modality: it is
    the one of the chart without them, and "Cardinal" when no entry has a
    sign of the twelve. *)
Theorem dominant_modality_ignores_unknown (planets : chart) :
  _dominant_modality planets
  = _dominant_modality (filter (fun kv => known_sign (snd kv)) planets) /\
  (forallb (fun kv => negb (known_sign (snd kv))) planets = true ->
   _dominant_modality planets = Ok "Cardinal").
Proof.
  assert (Hcount : forall mo,
            modality_count mo
              (values (filter (fun kv => known_sign (snd kv)) planets))
            = modality_count mo (values planets)).
  { intros mo. rewrite values_filter. apply modality_count_filter. }
  split.
  - rewrite !dominant_modality_max_key. cbn [map MODALITIES].
    rewrite !Hcount. reflexivity.
  - intros Hall.
    pose proof (filter_none _ planets Hall) as Hnil.
    rewrite dominant_modality_max_key. cbn [map MODALITIES].
    rewrite <- !Hcount, Hnil. reflexivity.
Qed.

Lemma element_weight_perm (el : string) (p1 p2 : chart) :
  Permutation p1 p2 -> element_weight el p1 = element_weight el p2.
Proof.
  induction 1 as [|[k v] l1 l2 _ IH|[k1 v1] [k2 v2] l|l1 l2 l3 _ IH1 _ IH2];
    cbn [element_weight]; lia.
Qed.

Lemma modality_count_perm (mo : string) (v1 v2 : list entry) :
  Permutation v1 v2 -> modality_count mo v1 = modality_count mo v2.
Proof.
  induction 1 as [|x l1 l2 _ IH|x y l|l1 l2 l3 _ IH1 _ IH2];
    cbn [modality_count]; lia.
Qed.

(** X4. The dominant element and the dominant modality do not depend on
    the order of the entries of the chart. *)
Theorem dominant_order_independent (p1 p2 : chart) :
  Permutation p1 p2 ->
  _dominant_element p1 = _dominant_element p2 /\
  _dominant_modality p1 = _dominant_modality p2.
Proof.
  intros H. rewrite !dominant_element_max_key, !dominant_modality_max_key.
  cbn [map ELEMENTS MODALITIES].
  rewrite !(element_weight_perm _ p1 p2 H).
  rewrite !(modality_count_perm _ (values p1) (values p2))
    by (apply Permutation_map; exact H).
  split; reflexivity.
Qed.

(** The demo chart and its reverse. *)
Lemma dominant_order_independent_witness :
  _dominant_element demo_chart = _dominant_element (rev demo_chart) /\
  _dominant_modality demo_chart = _dominant_modality (rev demo_chart).
Proof.
  apply dominant_order_independent. apply Permutation_rev.
Defined.

(** ** The row *)

Lemma build_csv_row_returns (planets : chart) (inputs : NatalInputs) :
  exists el mo,
    _dominant_element planets = Ok el /\
    _dominant_modality planets = Ok mo /\
    build_csv_row planets inputs =
    Ok [ ("Name", name inputs);
         ("SunSign", planet_sign planets "Sun");
         ("MoonSign", planet_sign planets "Moon");
         ("Rising", planet_sign planets "Ascendant");
         ("DateRange",
          get_default SIGN_DATE_RANGES (planet_sign planets "Sun") "");
         ("Mercury", planet_sign planets "Mercury");
         ("Venus", planet_sign planets "Venus");
         ("Mars", planet_sign planets "Mars");
         ("Jupiter", planet_sign planets "Jupiter");
         ("Saturn", planet_sign planets "Saturn");
         ("Uranus", planet_sign planets "Uranus");
         ("Neptune", planet_sign planets "Neptune");
         ("Pluto", planet_sign planets "Pluto");
         ("NorthNode", "Calculated node data unavailable in offline mode");
         ("Chiron", "Calculated Chiron data unavailable in offline mode");
         ("Element", el);
         ("Modality", mo);
         ("DominantPlanet",
          if String.eqb (planet_sign planets "Sun") "" then "" else "Sun");
         ("ChartRuler",
          get_default CHART_RULERS (planet_sign planets "Ascendant") "");
         ("SoulPurpose",
          ("Evolve through " ++ planet_sign planets "Sun"
             ++ " virtues while rising as "
             ++ planet_sign planets "Ascendant" ++ ".")%string);
         ("ShadowWork",
          ("Integrate the lessons of " ++ planet_sign planets "Pluto"
             ++ " and " ++ planet_sign planets "Saturn" ++ ".")%string);
         ("LifeLesson",
          ("Discipline of " ++ planet_sign planets "Saturn" ++ " in a "
             ++ mo ++ " path.")%string);
         ("CoreWound", "Chiron themes require further calculation.");
         ("GiftToWorld",
          ("Jupiter in " ++ planet_sign planets "Jupiter"
             ++ " expands your influence.")%string) ].
Proof.
  destruct (max_key_nonempty_map (fun el => element_weight el planets)
              "Fire" ["Earth"; "Air"; "Water"]) as (el & Hel).
  destruct (max_key_nonempty_map
              (fun mo => modality_count mo (values planets))
              "Cardinal" ["Fixed"; "Mutable"]) as (mo & Hmo).
  change ("Fire" :: ["Earth"; "Air"; "Water"]) with ELEMENTS in Hel.
  change ("Cardinal" :: ["Fixed"; "Mutable"]) with MODALITIES in Hmo.
  rewrite <- dominant_element_max_key in Hel.
  rewrite <- dominant_modality_max_key in Hmo.
  exists el, mo. split; [exact Hel|split; [exact Hmo|]].
  unfold build_csv_row. rewrite Hel, Hmo. reflexivity.
Qed.

(** X5. [build_csv_row] returns a row for every chart (no lookup raises),
    and the row has the twenty-four columns of the schema, in order,
    whatever the chart holds. *)
Theorem build_csv_row_schema (planets : chart) (inputs : NatalInputs) :
  exists row,
    build_csv_row planets inputs = Ok row /\
    keys row = CSV_COLUMNS /\
    dict_get row "Name" = Some (name inputs).
Proof.
  destruct (build_csv_row_returns planets inputs) as (el & mo & _ & _ & H).
  eexists. split; [exact H|]. split; reflexivity.
Qed.

Lemma in_sign_order_dec (s : string) :
  In s SIGN_ORDER <-> existsb (String.eqb s) SIGN_ORDER = true.
Proof.
  rewrite existsb_exists. split.
  - intros H. exists s. split; [exact H|apply String.eqb_refl].
  - intros (x & Hx & E). apply String.eqb_eq in E. subst x. exact Hx.
Qed.

Lemma table_default_empty (table : dict string) (s : string) :
  keys table = SIGN_ORDER \/ Permutation (keys table) SIGN_ORDER ->
  forallb (fun kv => negb (String.eqb (snd kv) "")) table = true ->
  (get_default table s "" = "" <-> ~ In s SIGN_ORDER).
Proof.
  intros Hkeys Hvals.
  assert (Hin : forall x, In x (keys table) <-> In x SIGN_ORDER).
  { intros x. destruct Hkeys as [->|Hp]; [reflexivity|].
    split; intros H; [eapply Permutation_in; eauto|].
    eapply Permutation_in; [apply Permutation_sym; exact Hp|exact H]. }
  unfold get_default.
  destruct (dict_get table s) as [v|] eqn:Hg.
  - apply dict_get_In in Hg. split.
    + intros ->. rewrite forallb_forall in Hvals.
      apply Hvals in Hg. discriminate.
    + intros Hn. exfalso. apply Hn. apply Hin.
      unfold keys. apply in_map_iff. exists (s, v). auto.
  - split; [|reflexivity]. intros _ Hs. apply Hin in Hs.
    unfold keys in Hs. apply in_map_iff in Hs as ([k v] & Hk & Hkv).
    cbn in Hk. subst k.
    clear Hkeys Hvals Hin. induction table as [|[k0 v0] table IH];
      [destruct Hkv|].
    cbn [dict_get] in Hg. destruct (String.eqb k0 s) eqn:E; [discriminate|].
    destruct Hkv as [[= -> _]|Hkv]; [rewrite String.eqb_refl in E; discriminate|].
    auto.
Qed.

(** X6. In every row [build_csv_row] returns, the chart ruler is empty
    exactly when the rising sign is not one of the twelve, and the date
    range is empty exactly when the sun sign is not one of the twelve. *)
Theorem ruler_and_date_range_empty (planets : chart) (inputs : NatalInputs)
    (row : dict string) :
  build_csv_row planets inputs = Ok row ->
  exists rising ruler sun dates,
    dict_get row "Rising" = Some rising /\
    dict_get row "ChartRuler" = Some ruler /\
    (ruler = "" <-> ~ In rising SIGN_ORDER) /\
    dict_get row "SunSign" = Some sun /\
    dict_get row "DateRange" = Some dates /\
    (dates = "" <-> ~ In sun SIGN_ORDER).
Proof.
  destruct (build_csv_row_returns planets inputs) as (el & mo & _ & _ & H).
  rewrite H. intros [= <-].
  exists (planet_sign planets "Ascendant"),
         (get_default CHART_RULERS (planet_sign planets "Ascendant") ""),
         (planet_sign planets "Sun"),
         (get_default SIGN_DATE_RANGES (planet_sign planets "Sun") "").
  split; [reflexivity|]. split; [reflexivity|]. split.
  - apply table_default_empty; [left|]; reflexivity.
  - split; [reflexivity|]. split; [reflexivity|].
    apply table_default_empty; [left|]; reflexivity.
Qed.

(** On the demo chart the ascendant is in Taurus and Venus rules. *)
Lemma ruler_and_date_range_empty_witness :
  exists rising ruler sun dates,
    dict_get demo_row "Rising" = Some rising /\
    dict_get demo_row "ChartRuler" = Some ruler /\
    (ruler = "" <-> ~ In rising SIGN_ORDER) /\
    dict_get demo_row "SunSign" = Some sun /\
    dict_get demo_row "DateRange" = Some dates /\
    (dates = "" <-> ~ In sun SIGN_ORDER).
Proof.
  apply (ruler_and_date_range_empty demo_chart (demo_inputs "UTC")).
  vm_compute. reflexivity.
Defined.

(** ** The chart and its row together *)

Lemma best_match_sign (w : World) (observer : Observer w) (ts_time : Time w)
    (p : string * float) :
  _best_match_ascendant w observer ts_time = Ok p -> In (fst p) SIGN_ORDER.
Proof.
  unfold _best_match_ascendant, search.
  destruct (scan w observer ts_time candidates (inf, zero)) as [best|e]; cbn.
  - destruct (_longitude_to_sign (snd best)) as [[s d]|e] eqn:Hp; cbn.
    + intros [= <-]. apply (longitude_to_sign_range _ _ _ Hp).
    + intros [= <-]. left. reflexivity.
  - intros [= <-]. left. reflexivity.
Qed.

Lemma chart_body_ascendant (w : World) (ephemeris : Ephemeris w)
    (inputs : NatalInputs) (c : chart) :
  chart_body w ephemeris inputs = Ok c ->
  exists s d, dict_get c "Ascendant" = Some (placement s d) /\
              In s SIGN_ORDER.
Proof.
  unfold chart_body. intros H.
  destruct (load_timescale w) as [ts|]; cbn [bind] in H; [|discriminate].
  destruct (pytz_timezone w _) as [tz|]; cbn [bind] in H; [|discriminate].
  destruct (localize w tz _) as [ldt|]; cbn [bind] in H; [|discriminate].
  destruct (astimezone_utc w ldt) as [udt|]; cbn [bind] in H; [|discriminate].
  destruct (from_datetime w ts udt) as [t|]; cbn [bind] in H; [|discriminate].
  destruct (ephemeris_getitem w ephemeris "earth") as [earth|]; cbn [bind] in H; [|discriminate].
  destruct (wgs84_latlon w _ _) as [topos|]; cbn [bind] in H; [|discriminate].
  destruct (vector_sum w earth topos) as [obs|]; cbn [bind] in H; [|discriminate].
  destruct (lookup_bodies w ephemeris BODY_KEYS []) as [bodies|]; cbn [bind] in H; [|discriminate].
  destruct (place_bodies w obs t bodies []) as [planets|]; cbn [bind] in H; [|discriminate].
  destruct (_best_match_ascendant w obs t) as [asc|] eqn:Ha; cbn [bind] in H; [|discriminate].
  injection H as <-. exists (fst asc), (snd asc). split.
  - rewrite dict_get_set, String.eqb_refl. reflexivity.
  - eapply best_match_sign; eauto.
Qed.

(** In a chart that the [try] block returns, each of the eleven keys holds
    a sign of the twelve. *)
Lemma chart_body_signs (w : World) (ephemeris : Ephemeris w)
    (inputs : NatalInputs) (c : chart) (col body : string) :
  chart_body w ephemeris inputs = Ok c ->
  In (col, body) SIGN_COLUMNS ->
  In (planet_sign c body) SIGN_ORDER.
Proof.
  intros Hc Hin.
  assert (Hbody : body = "Ascendant" \/ exists key, In (body, key) BODY_KEYS).
  { cbn in Hin.
    repeat (destruct Hin as [Hin|Hin];
            [injection Hin as _ <-;
             first [left; reflexivity
                   |right; eexists; cbn; eauto 12]|]).
    destruct Hin. }
  unfold planet_sign. destruct Hbody as [->|(key & Hk)].
  - destruct (chart_body_ascendant w ephemeris inputs c Hc) as (s & d & -> & Hs).
    exact Hs.
  - destruct (chart_body_targets w ephemeris inputs c body key Hc Hk)
      as (obs & t & target & lon & [s d] & _ & _ & Hp & ->).
    apply (longitude_to_sign_range _ _ _ Hp).
Qed.

Lemma build_csv_row_sign_columns (planets : chart) (inputs : NatalInputs)
    (row : dict string) (col body : string) :
  build_csv_row planets inputs = Ok row ->
  In (col, body) SIGN_COLUMNS ->
  dict_get row col = Some (planet_sign planets body).
Proof.
  destruct (build_csv_row_returns planets inputs) as (el & mo & _ & _ & H).
  rewrite H. intros [= <-] Hin. cbn in Hin.
  repeat (destruct Hin as [Hin|Hin]; [injection Hin as <- <-; reflexivity|]).
  destruct Hin.
Qed.

(** X7. The form handler's two calls never raise, and the row is degraded
    as a whole or not at all: either every sign column is "Unknown" (and
    the element is "Earth", the date range and the ruler are empty), or
    every sign column holds one of the twelve signs. *)
Theorem natal_csv_row_all_or_nothing (w : World) (inputs : NatalInputs) :
  exists row,
    natal_csv_row w inputs = Ok row /\
    keys row = CSV_COLUMNS /\
    ((forall col body, In (col, body) SIGN_COLUMNS ->
        dict_get row col = Some "Unknown") /\
     dict_get row "Element" = Some "Earth" /\
     dict_get row "DateRange" = Some "" /\
     dict_get row "ChartRuler" = Some ""
     \/
     (forall col body, In (col, body) SIGN_COLUMNS ->
        exists s, In s SIGN_ORDER /\ dict_get row col = Some s)).
Proof.
  unfold natal_csv_row.
  destruct (compute_natal_chart_cases w inputs)
    as [H|(eph & c & _ & Hb & H)]; rewrite H; cbn [bind].
  - destruct (build_csv_row_returns _placeholder_planets inputs)
      as (el & mo & Hel & Hmo & Hrow).
    vm_compute in Hel. injection Hel as <-.
    eexists. split; [exact Hrow|]. split; [reflexivity|]. left.
    split; [|repeat split].
    intros col body Hin. cbn in Hin.
    repeat (destruct Hin as [Hin|Hin]; [injection Hin as <- <-; reflexivity|]).
    destruct Hin.
  - destruct (build_csv_row_returns c inputs) as (el & mo & _ & _ & Hrow).
    eexists. split; [exact Hrow|]. split; [reflexivity|]. right.
    intros col body Hin. exists (planet_sign c body). split.
    + eapply chart_body_signs; eauto.
    + eapply build_csv_row_sign_columns; eauto.
Qed.

(** ** Longitudes that are not finite *)

Lemma longitude_to_sign_nan_inf (x : float) :
  F2Q x = None -> _longitude_to_sign x = Raise ValueError.
Proof.
  destruct x as [s|s| |s m e]; cbn [F2Q]; try discriminate; intros _.
  - destruct s; vm_compute; reflexivity.
  - vm_compute. reflexivity.
Qed.

(** X8. A longitude that is NaN or infinite makes the projection raise
    [ValueError]: the remainder by 360 is NaN, and [int] refuses it. *)
Theorem longitude_to_sign_not_finite (x : float) :
  F2Q x = None -> _longitude_to_sign x = Raise ValueError.
Proof. apply longitude_to_sign_nan_inf. Qed.

Lemma longitude_to_sign_not_finite_witness :
  _longitude_to_sign S754_nan = Raise ValueError.
Proof.
  apply longitude_to_sign_not_finite. reflexivity.
Defined.

Lemma chart_body_observation (w : World) (ephemeris : Ephemeris w)
    (inputs : NatalInputs) :
  chart_body w ephemeris inputs =
  (ot <- observation_of w ephemeris inputs ;;
   bodies <- lookup_bodies w ephemeris BODY_KEYS [] ;;
   planets <- place_bodies w (fst ot) (snd ot) bodies [] ;;
   asc <- _best_match_ascendant w (fst ot) (snd ot) ;;
   Ok (dict_set planets "Ascendant" (placement (fst asc) (snd asc)))).
Proof.
  unfold chart_body, observation_of.
  destruct (load_timescale w) as [ts|]; cbn [bind]; [|reflexivity].
  destruct (pytz_timezone w _) as [tz|]; cbn [bind]; [|reflexivity].
  destruct (localize w tz _) as [ldt|]; cbn [bind]; [|reflexivity].
  destruct (astimezone_utc w ldt) as [udt|]; cbn [bind]; [|reflexivity].
  destruct (from_datetime w ts udt) as [t|]; cbn [bind]; [|reflexivity].
  destruct (ephemeris_getitem w ephemeris "earth") as [earth|]; cbn [bind];
    [|reflexivity].
  destruct (wgs84_latlon w _ _) as [topos|]; cbn [bind]; [|reflexivity].
  destruct (vector_sum w earth topos) as [obs|]; cbn [bind]; reflexivity.
Qed.

(** X9. When, in a run, one of the ten bodies is observed at a longitude
    that is not finite, the whole chart is the placeholder: no entry of
    another body is kept.  The observation is the run's own: of the target
    held under the body's key, by the observer and at the instant that the
    run builds from the inputs. *)
Theorem not_finite_longitude_gives_placeholder (w : World)
    (inputs : NatalInputs) (eph : Ephemeris w) (observer : Observer w)
    (ts_time : Time w) (body key : string) (target : Target w)
    (lon : float) :
  load w "de421.bsp" = Ok eph ->
  observation_of w eph inputs = Ok (observer, ts_time) ->
  dict_get BODY_KEYS body = Some key ->
  ephemeris_getitem w eph key = Ok target ->
  ecliptic_lon_degrees w observer ts_time target = Ok lon ->
  F2Q lon = None ->
  compute_natal_chart w inputs = Ok _placeholder_planets.
Proof.
  intros Hload Hobs Hk Hg Hl Hbad.
  destruct (compute_natal_chart_cases w inputs)
    as [H|(eph' & c & Hload' & Hb & H)]; [exact H|exfalso].
  rewrite Hload in Hload'. injection Hload' as <-.
  rewrite chart_body_observation, Hobs in Hb. cbn [bind fst snd] in Hb.
  destruct (lookup_bodies w eph BODY_KEYS []) as [bodies|] eqn:Hbodies;
    cbn [bind] in Hb; [|discriminate].
  destruct (place_bodies w observer ts_time bodies []) as [planets|] eqn:Hp;
    cbn [bind] in Hb; [|discriminate].
  destruct (lookup_bodies_get w _ _ _ _ body key Hbodies body_keys_nodup
              (dict_get_In _ _ _ Hk)) as (target' & Hg' & Hget).
  rewrite Hg in Hg'. injection Hg' as <-.
  assert (Hnd : NoDup (keys bodies)).
  { rewrite (lookup_bodies_keys w _ _ _ _ Hbodies). exact body_keys_nodup. }
  destruct (place_bodies_get w observer ts_time bodies [] planets body target
              Hp Hnd (dict_get_In _ _ _ Hget)) as (lon' & p & Hl' & Hsd & _).
  rewrite Hl in Hl'. injection Hl' as <-.
  rewrite (longitude_to_sign_nan_inf lon Hbad) in Hsd. discriminate.
Qed.

(** In the demo world with Mars at a NaN longitude. *)
Lemma not_finite_longitude_gives_placeholder_witness :
  compute_natal_chart (demo_world_with mars_nan) (demo_inputs "UTC")
  = Ok _placeholder_planets.
Proof.
  apply (not_finite_longitude_gives_placeholder
           (demo_world_with mars_nan) (demo_inputs "UTC")
           tt demo_observer demo_time "Mars" "mars" "mars" S754_nan);
    reflexivity.
Defined.

(** ** The resolution of the ascendant *)

(** X10. Whatever the observations return or raise, the estimator returns
    the projection of one of the 720 grid longitudes: a sign with a degree
    that is a multiple of 0.5. *)
Theorem best_match_ascendant_on_grid (w : World) (observer : Observer w)
    (ts_time : Time w) :
  exists k,
    (k < 720)%nat /\
    _best_match_ascendant w observer ts_time
      = _longitude_to_sign (nth k candidates zero) /\
    grid_fact k.
Proof.
  assert (Hzero : exists k, (k < 720)%nat /\ nth k candidates zero = zero).
  { exists 0%nat. split; [lia|reflexivity]. }
  assert (Hsel : exists k, (k < 720)%nat /\
            _best_match_ascendant w observer ts_time
              = _longitude_to_sign (nth k candidates zero)).
  { unfold _best_match_ascendant, search.
    destruct (scan w observer ts_time candidates (inf, zero)) as [best|e] eqn:Hs;
      cbn [bind try_except any_Exception].
    - assert (Hk : exists k, (k < 720)%nat /\ nth k candidates zero = snd best).
      { apply scan_longitude in Hs as [Hs|Hin].
        - cbn in Hs. rewrite Hs. exact Hzero.
        - apply (In_nth _ _ zero) in Hin as (k & Hk & Hn).
          rewrite candidates_length in Hk. eauto. }
      destruct Hk as (k & Hk & Hn). exists k. split; [exact Hk|].
      rewrite Hn.
      assert (Hp : projects (snd best) = true).
      { rewrite <- Hn. pose proof candidates_project as H.
        rewrite forallb_forall in H. apply H. apply nth_In.
        rewrite candidates_length. exact Hk. }
      unfold projects in Hp.
      destruct (_longitude_to_sign (snd best)); [reflexivity|discriminate].
    - exists 0%nat. split; [lia|]. vm_compute. reflexivity. }
  destruct Hsel as (k & Hk & H). exists k. repeat split; auto.
  apply grid_facts. exact Hk.
Qed.

(** ** A failing estimator *)

Lemma forallb_false {A : Type} (f : A -> bool) (l : list A) :
  forallb f l = false -> exists x, In x l /\ f x = false.
Proof.
  induction l as [|x l IH]; [discriminate|].
  cbn [forallb]. destruct (f x) eqn:Hx.
  - intros H. destruct (IH H) as (y & Hy & Hfy). exists y. split; [right|]; auto.
  - intros _. exists x. split; [left; reflexivity|exact Hx].
Qed.

Lemma best_match_without_stars (w : World) (observer : Observer w)
    (ts_time : Time w) :
  (forall lat lon, exists e, Star w lat lon = Raise e) ->
  _best_match_ascendant w observer ts_time = Ok ("Aries", zero).
Proof.
  intros Hstar.
  assert (Hraise : forall c, exists e,
            observe_candidate w observer ts_time c = Raise e).
  { intros c. destruct (Hstar zero c) as (e & He). exists e.
    unfold observe_candidate. rewrite He. reflexivity. }
  destruct (forallb (fun c => skippable (observe_candidate w observer ts_time c))
              candidates) eqn:Hall.
  - unfold _best_match_ascendant, search.
    rewrite (scan_all_skipped w observer ts_time candidates (inf, zero));
      [reflexivity|].
    intros c Hc. destruct (Hraise c) as (e & He). exists e. split; [exact He|].
    rewrite forallb_forall in Hall. specialize (Hall c Hc).
    rewrite He in Hall. exact Hall.
  - apply forallb_false in Hall.
    unfold _best_match_ascendant, search.
    destruct (scan_abort w observer ts_time candidates (inf, zero) Hall)
      as (e & ->).
    reflexivity.
Qed.

Lemma chart_body_without_stars (w : World) (ephemeris : Ephemeris w)
    (inputs : NatalInputs) (c : chart) :
  (forall lat lon, exists e, Star w lat lon = Raise e) ->
  chart_body w ephemeris inputs = Ok c ->
  dict_get c "Ascendant" = Some (placement "Aries" zero).
Proof.
  unfold chart_body. intros Hstar H.
  destruct (load_timescale w) as [ts|]; cbn [bind] in H; [|discriminate].
  destruct (pytz_timezone w _) as [tz|]; cbn [bind] in H; [|discriminate].
  destruct (localize w tz _) as [ldt|]; cbn [bind] in H; [|discriminate].
  destruct (astimezone_utc w ldt) as [udt|]; cbn [bind] in H; [|discriminate].
  destruct (from_datetime w ts udt) as [t|]; cbn [bind] in H; [|discriminate].
  destruct (ephemeris_getitem w ephemeris "earth") as [earth|]; cbn [bind] in H; [|discriminate].
  destruct (wgs84_latlon w _ _) as [topos|]; cbn [bind] in H; [|discriminate].
  destruct (vector_sum w earth topos) as [obs|]; cbn [bind] in H; [|discriminate].
  destruct (lookup_bodies w ephemeris BODY_KEYS []) as [bodies|]; cbn [bind] in H; [|discriminate].
  destruct (place_bodies w obs t bodies []) as [planets|]; cbn [bind] in H; [|discriminate].
  rewrite (best_match_without_stars w obs t Hstar) in H. cbn [bind fst snd] in H.
  injection H as <-. rewrite dict_get_set, String.eqb_refl. reflexivity.
Qed.

(** X11. When no candidate point can be built (the construction raises,
    whatever the exception), a chart that is computed still holds the sign
    of each of the ten bodies, with the ascendant at (Aries, 0.0): the
    failure of the estimator costs the ascendant only. *)
Theorem estimator_failure_keeps_bodies (w : World) (inputs : NatalInputs)
    (c : chart) :
  (forall lat lon, exists e, Star w lat lon = Raise e) ->
  compute_natal_chart w inputs = Ok c ->
  c = _placeholder_planets \/
  (dict_get c "Ascendant" = Some (placement "Aries" zero) /\
   forall body key, dict_get BODY_KEYS body = Some key ->
     exists s d, dict_get c body = Some (placement s d) /\ In s SIGN_ORDER).
Proof.
  intros Hstar Hc.
  destruct (compute_natal_chart_cases w inputs)
    as [H|(eph & c' & _ & Hb & H)]; rewrite H in Hc; injection Hc as <-;
    [left; reflexivity|right].
  split; [eapply chart_body_without_stars; eauto|].
  intros body key Hk.
  destruct (chart_body_targets w eph inputs c' body key Hb
              (dict_get_In _ _ _ Hk))
    as (obs & t & target & lon & [s d] & _ & _ & Hp & Hget).
  exists s, d. split; [exact Hget|].
  apply (longitude_to_sign_range _ _ _ Hp).
Qed.

(** In [demo_no_star] the chart is computed, with the default ascendant. *)
Lemma estimator_failure_keeps_bodies_witness :
  demo_no_star_chart = _placeholder_planets \/
  (dict_get demo_no_star_chart "Ascendant" = Some (placement "Aries" zero) /\
   forall body key, dict_get BODY_KEYS body = Some key ->
     exists s d, dict_get demo_no_star_chart body = Some (placement s d) /\
                 In s SIGN_ORDER).
Proof.
  apply (estimator_failure_keeps_bodies demo_no_star (demo_inputs "UTC")).
  - intros lat lon. exists ZeroDivisionError. reflexivity.
  - vm_compute. reflexivity.
Defined.

(** ** The projection, for every float *)

(** X12. For every float, finite or not, whenever the projection returns
    it returns one of the twelve signs and a degree that denotes a rational
    of [[0, 30)]; it never returns a degree of 30 or a negative one. *)
Theorem longitude_to_sign_returns_valid (x : float) (s : string) (d : float) :
  _longitude_to_sign x = Ok (s, d) ->
  In s SIGN_ORDER /\
  exists q, F2Q d = Some q /\ (0 <= q)%Q /\ (q < 30)%Q.
Proof. apply longitude_to_sign_range. Qed.

(** The largest finite float projects to Leo at 8.0. *)
Lemma longitude_to_sign_returns_valid_witness :
  In "Leo" SIGN_ORDER /\
  exists q, F2Q (of_Z 8) = Some q /\ (0 <= q)%Q /\ (q < 30)%Q.
Proof.
  apply (longitude_to_sign_returns_valid
           (S754_finite false 9007199254740991 971)).
  vm_compute. reflexivity.
Defined.

(** ** Degrees and the row *)

Lemma dict_get_without_degrees (planets : chart) (k : string) :
  dict_get (without_degrees planets) k
  = option_map (fun data => {| sign := sign data; degree := None |})
      (dict_get planets k).
Proof.
  induction planets as [|[k0 data] planets IH]; [reflexivity|].
  cbn [without_degrees map dict_get fst snd].
  destruct (String.eqb k0 k); [reflexivity|exact IH].
Qed.

Lemma planet_sign_without_degrees (planets : chart) (k : string) :
  planet_sign (without_degrees planets) k = planet_sign planets k.
Proof.
  unfold planet_sign. rewrite dict_get_without_degrees.
  destruct (dict_get planets k); reflexivity.
Qed.

Lemma element_weight_without_degrees (el : string) (planets : chart) :
  element_weight el (without_degrees planets) = element_weight el planets.
Proof.
  induction planets as [|[k0 data] planets IH]; [reflexivity|].
  cbn [without_degrees map element_weight fst snd].
  fold (without_degrees planets). rewrite IH. reflexivity.
Qed.

Lemma modality_count_without_degrees (mo : string) (planets : chart) :
  modality_count mo (values (without_degrees planets))
  = modality_count mo (values planets).
Proof.
  induction planets as [|[k0 data] planets IH]; [reflexivity|].
  cbn [without_degrees values map modality_count fst snd].
  fold (without_degrees planets).
  fold (values (without_degrees planets)) (values planets).
  rewrite IH. reflexivity.
Qed.

(** X13. No degree reaches the row: [build_csv_row] returns the same row
    for a chart and for the chart with the degree removed from every
    entry. *)
Theorem build_csv_row_ignores_degrees (planets : chart) (inputs : NatalInputs) :
  build_csv_row (without_degrees planets) inputs = build_csv_row planets inputs.
Proof.
  destruct (build_csv_row_returns planets inputs)
    as (el & mo & Hel & Hmo & H).
  destruct (build_csv_row_returns (without_degrees planets) inputs)
    as (el' & mo' & Hel' & Hmo' & H').
  rewrite dominant_element_max_key in Hel, Hel'.
  rewrite dominant_modality_max_key in Hmo, Hmo'.
  cbn [map ELEMENTS MODALITIES] in Hel', Hmo'.
  rewrite !element_weight_without_degrees in Hel'.
  rewrite !modality_count_without_degrees in Hmo'.
  cbn [map ELEMENTS MODALITIES] in Hel, Hmo.
  rewrite Hel in Hel'. rewrite Hmo in Hmo'.
  injection Hel' as <-. injection Hmo' as <-.
  rewrite H, H', !planet_sign_without_degrees. reflexivity.
Qed.
